(** * The logging header [services/inc/logging.h]

    A shallow embedding of the header: the [LogLevel] scale, the
    build-time configuration, the category resolver [LOG_THIS_CATEGORY] in
    its C and its C++ form, the attribute initializer [_LOG_INIT_ATTR],
    the wrapper macros [LOG_C], [LOG_WRITE_C], [LOG_PRINT_C],
    [LOG_PRINTF_C], [LOG_DUMP_C], [LOG_ENABLED_C], their current-category
    forms and [PANIC], first as they are with [LOG_DISABLE] undefined,
    then as [LOG_DISABLE] and [DEBUG_BUILD] select them, with the
    [LOG_DEBUG] counterparts.

    The header only declares the functions behind the macros
    ([log_message], [log_write], [log_printf], [log_dump], [log_enabled],
    [log_init_attr], [log_set_callbacks], [panic_]).  The macros are
    therefore written over an interface, [LogApi]; a second part gives the
    interface an implementation that follows the written specification. *)

From Stdlib Require Import ZArith List String Bool Lia.
From Stdlib Require Import Strings.Byte Strings.Ascii.
Import ListNotations.

Local Open Scope Z_scope.

(** ** C data *)

(** A [const char*]: [None] is the null pointer. *)
Definition cstr := option string.

(** A [void*] used as an opaque context: [None] is the null pointer. *)
Definition void_ptr := option Z.

Definition NULL {A : Type} : option A := None.

(** Truth of a C scalar in a condition. *)
Definition c_true (z : Z) : bool := negb (z =? 0).

(** The [int] a C logical operator yields. *)
Definition c_int (b : bool) : Z := if b then 1 else 0.

(** ** The level scale: [enum LogLevel] *)

Definition LOG_LEVEL_ALL : Z := 1.
Definition LOG_LEVEL_TRACE : Z := 1.
Definition LOG_LEVEL_INFO : Z := 30.
Definition LOG_LEVEL_WARN : Z := 40.
Definition LOG_LEVEL_ERROR : Z := 50.
Definition LOG_LEVEL_PANIC : Z := 60.
Definition LOG_LEVEL_NONE : Z := 70.
(* Compatibility levels *)
Definition DEFAULT_LEVEL : Z := 0.
Definition ALL_LEVEL : Z := LOG_LEVEL_ALL.
Definition TRACE_LEVEL : Z := LOG_LEVEL_TRACE.
Definition LOG_LEVEL : Z := LOG_LEVEL_TRACE.
Definition DEBUG_LEVEL : Z := LOG_LEVEL_TRACE.
Definition INFO_LEVEL : Z := LOG_LEVEL_INFO.
Definition WARN_LEVEL : Z := LOG_LEVEL_WARN.
Definition ERROR_LEVEL : Z := LOG_LEVEL_ERROR.
Definition PANIC_LEVEL : Z := LOG_LEVEL_PANIC.
Definition NO_LOG_LEVEL : Z := LOG_LEVEL_NONE.

(** The named thresholds of the scale, in the order of the enum. *)
Definition thresholds : list Z :=
  [LOG_LEVEL_TRACE; LOG_LEVEL_INFO; LOG_LEVEL_WARN; LOG_LEVEL_ERROR;
   LOG_LEVEL_PANIC; LOG_LEVEL_NONE].

(** The enumerators listed under "Compatibility levels". *)
Definition legacy_aliases : list Z :=
  [ALL_LEVEL; TRACE_LEVEL; LOG_LEVEL; DEBUG_LEVEL; INFO_LEVEL; WARN_LEVEL;
   ERROR_LEVEL; PANIC_LEVEL; NO_LOG_LEVEL; DEFAULT_LEVEL].

(** The same, leaving [DEFAULT_LEVEL] out. *)
Definition mapped_aliases : list Z :=
  [ALL_LEVEL; TRACE_LEVEL; LOG_LEVEL; DEBUG_LEVEL; INFO_LEVEL; WARN_LEVEL;
   ERROR_LEVEL; PANIC_LEVEL; NO_LOG_LEVEL].

Fixpoint strictly_increasing (l : list Z) : bool :=
  match l with
  | a :: (b :: _) as rest => (a <? b) && strictly_increasing rest
  | _ => true
  end.

(** The wrapper macros take the level as a token and paste it after
    [LOG_LEVEL_]: only these seven tokens name an enumerator. *)
Module Token.
Inductive level_token : Type :=
  ALL | TRACE | INFO | WARN | ERROR | PANIC | NONE.
End Token.
Definition level_token : Type := Token.level_token.

(** [LOG_LEVEL_##_level] *)
Definition LOG_LEVEL_ (t : level_token) : Z :=
  match t with
  | Token.ALL => LOG_LEVEL_ALL
  | Token.TRACE => LOG_LEVEL_TRACE
  | Token.INFO => LOG_LEVEL_INFO
  | Token.WARN => LOG_LEVEL_WARN
  | Token.ERROR => LOG_LEVEL_ERROR
  | Token.PANIC => LOG_LEVEL_PANIC
  | Token.NONE => LOG_LEVEL_NONE
  end.

(** ** Build-time configuration

    Each field is a macro the build may define ([Some], with its value) or
    leave undefined ([None] or [false]); [sizeof_LogAttributes] is what
    [sizeof(LogAttributes)] evaluates to on the target. *)
Record Config : Type := {
  def_LOG_COMPILE_TIME_LEVEL : option Z;
  def_LOG_MAX_STRING_LENGTH : option Z;
  def_LOG_MODULE_CATEGORY : option cstr;
  def_LOG_INCLUDE_SOURCE_INFO : bool;
  sizeof_LogAttributes : Z
}.

(** [#ifndef LOG_COMPILE_TIME_LEVEL] / [#define ... LOG_LEVEL_ALL] *)
Definition LOG_COMPILE_TIME_LEVEL (cfg : Config) : Z :=
  match def_LOG_COMPILE_TIME_LEVEL cfg with
  | Some v => v
  | None => LOG_LEVEL_ALL
  end.

(** [#ifndef LOG_MAX_STRING_LENGTH] / [#define ... 160] *)
Definition LOG_MAX_STRING_LENGTH (cfg : Config) : Z :=
  match def_LOG_MAX_STRING_LENGTH cfg with
  | Some v => v
  | None => 160
  end.

(** [#ifndef LOG_MODULE_CATEGORY] / [#define ... NULL] *)
Definition LOG_MODULE_CATEGORY (cfg : Config) : cstr :=
  match def_LOG_MODULE_CATEGORY cfg with
  | Some v => v
  | None => NULL
  end.

(** A build that defines none of the macros, on a target where the six
    fields of [LogAttributes] take four bytes each. *)
Definition default_config : Config :=
  {| def_LOG_COMPILE_TIME_LEVEL := None;
     def_LOG_MAX_STRING_LENGTH := None;
     def_LOG_MODULE_CATEGORY := None;
     def_LOG_INCLUDE_SOURCE_INFO := false;
     sizeof_LogAttributes := 24 |}.

(** The condition every wrapper macro guards its body with:
    [LOG_LEVEL_##_level >= LOG_COMPILE_TIME_LEVEL]. *)
Definition passes_floor (cfg : Config) (t : level_token) : bool :=
  LOG_LEVEL_ t >=? LOG_COMPILE_TIME_LEVEL cfg.

(** ** Category resolver (the C branch of the header) *)

Module Category.

(** What a translation unit declares at file scope:
    [LOG_SOURCE_CATEGORY(_name)] defines the static function
    [_log_source_category_impl] that the weak reference
    [_log_source_category] binds to; without it the reference is null. *)
Record TranslationUnit : Type := {
  tu_config : Config;
  _log_source_category_impl : option cstr
}.

(** [LOG_THIS_CATEGORY()], given the [_log_category] the call site sees. *)
Definition LOG_THIS_CATEGORY (tu : TranslationUnit) (_log_category : cstr)
  : cstr :=
  match _log_category with
  | Some name => Some name
  | None =>
      match _log_source_category_impl tu with
      | Some name => name
      | None => LOG_MODULE_CATEGORY (tu_config tu)
      end
  end.

(** Block scopes open at a program point, innermost first.  A frame holds
    the [_log_category] the block has declared so far, if any. *)
Definition scopes := list (option cstr).

(** Name lookup of [_log_category]: the innermost declaration hides the
    outer ones; with none in any open block the file-scope dummy constant
    [static const char* const _log_category = NULL] is found. *)
Fixpoint visible_log_category (st : scopes) : cstr :=
  match st with
  | [] => NULL
  | Some name :: _ => name
  | None :: outer => visible_log_category outer
  end.

(** The part of a function body the resolver depends on. *)
Inductive item : Type :=
| Open                          (* "{" *)
| Close                         (* "}" *)
| LOG_CATEGORY (_name : cstr)   (* LOG_CATEGORY(_name); *)
| Site.                         (* an expansion of LOG_THIS_CATEGORY() *)

(** [LOG_CATEGORY(_name)] expands to the definition
    [static const char* const _log_category = _name].  C accepts one
    definition of an identifier per scope; at file scope the dummy
    constant is that definition already.  [None] is the compiler's
    rejection. *)
Definition declare (_name : cstr) (st : scopes) : option scopes :=
  match st with
  | None :: outer => Some (Some _name :: outer)
  | Some _ :: _ => None
  | [] => None
  end.

(** Elaboration of a body: the category of every call site, in program
    order, and the scopes left open at the end. *)
Fixpoint resolve (tu : TranslationUnit) (st : scopes) (body : list item)
  : option (list cstr * scopes) :=
  match body with
  | [] => Some ([], st)
  | Open :: rest => resolve tu (None :: st) rest
  | Close :: rest =>
      match st with
      | _ :: outer => resolve tu outer rest
      | [] => None
      end
  | LOG_CATEGORY _name :: rest =>
      match declare _name st with
      | Some st' => resolve tu st' rest
      | None => None
      end
  | Site :: rest =>
      match resolve tu st rest with
      | Some (cs, st') =>
          Some (LOG_THIS_CATEGORY tu (visible_log_category st) :: cs, st')
      | None => None
      end
  end.

(** A block statement. *)
Definition block (body : list item) : list item := Open :: body ++ [Close].

(** [body], entered [d] blocks below the block it belongs to, closes the
    blocks it opens and those [d], and no other. *)
Fixpoint balanced_from (d : nat) (body : list item) : bool :=
  match body with
  | [] => Nat.eqb d 0
  | Open :: rest => balanced_from (S d) rest
  | Close :: rest =>
      match d with
      | S d' => balanced_from d' rest
      | O => false
      end
  | _ :: rest => balanced_from d rest
  end.



(** *** The resolver as the specification words it

    The scope-declared category when one is declared, whatever its value,
    and a declaration that replaces an earlier one of the same scope. *)
Module AsSpecified.

Fixpoint declared_category (st : scopes) : option cstr :=
  match st with
  | [] => None
  | Some name :: _ => Some name
  | None :: outer => declared_category outer
  end.

Definition this_category (tu : TranslationUnit) (st : scopes) : cstr :=
  match declared_category st with
  | Some name => name
  | None =>
      match _log_source_category_impl tu with
      | Some name => name
      | None => LOG_MODULE_CATEGORY (tu_config tu)
      end
  end.

Definition declare (_name : cstr) (st : scopes) : option scopes :=
  match st with
  | _ :: outer => Some (Some _name :: outer)
  | [] => None
  end.

Fixpoint resolve (tu : TranslationUnit) (st : scopes) (body : list item)
  : option (list cstr * scopes) :=
  match body with
  | [] => Some ([], st)
  | Open :: rest => resolve tu (None :: st) rest
  | Close :: rest =>
      match st with
      | _ :: outer => resolve tu outer rest
      | [] => None
      end
  | LOG_CATEGORY _name :: rest =>
      match declare _name st with
      | Some st' => resolve tu st' rest
      | None => None
      end
  | Site :: rest =>
      match resolve tu st rest with
      | Some (cs, st') => Some (this_category tu st :: cs, st')
      | None => None
      end
  end.

End AsSpecified.

End Category.

(** ** Effects

    A computation runs on a program state [W] and either returns to its
    caller or hands control to the fatal path with an error code, after
    which nothing of the caller runs. *)
Inductive Outcome (W A : Type) : Type :=
| Returns (a : A) (w : W)
| Halts (code : Z) (w : W).
Arguments Returns {W A} a w.
Arguments Halts {W A} code w.

Definition M (W A : Type) : Type := W -> Outcome W A.

Definition ret {W A : Type} (a : A) : M W A := fun w => Returns a w.

Definition bind {W A B : Type} (m : M W A) (k : A -> M W B) : M W B :=
  fun w =>
    match m w with
    | Returns a w' => k a w'
    | Halts code w' => Halts code w'
    end.

Declare Scope log_scope.
Delimit Scope log_scope with log.
Notation "x <- m ;; k" := (bind m (fun x => k))
  (at level 61, m at next level, right associativity) : log_scope.
Notation "m ;; k" := (bind m (fun _ => k))
  (at level 61, right associativity) : log_scope.

(** ** [struct LogAttributes] *)
Record LogAttributes : Type := {
  size : Z;          (* Structure size *)
  flags : Z;         (* Reserved for future use *)
  file : cstr;       (* Source file name (can be null) *)
  line : Z;          (* Line number *)
  function : cstr;   (* Function name (can be null) *)
  time : Z           (* Number of milliseconds passed since the startup *)
}.

(** ** The functions the header declares

    [data] arguments are the bytes found from the pointer on; an
    out-parameter is returned.  [VaList] is what a variable argument list
    carries. *)
Class LogApi (W VaList : Type) : Type := {
  log_message :
    Z -> cstr -> LogAttributes -> void_ptr -> string -> VaList -> M W unit;
  log_write : Z -> cstr -> list byte -> nat -> void_ptr -> M W unit;
  log_printf : Z -> cstr -> void_ptr -> string -> VaList -> M W unit;
  log_dump : Z -> cstr -> list byte -> nat -> Z -> void_ptr -> M W unit;
  log_enabled : Z -> cstr -> void_ptr -> M W Z;
  log_init_attr : LogAttributes -> void_ptr -> M W LogAttributes;
  HAL_Delay_Microseconds : Z -> M W unit;
  panic_ : Z -> void_ptr -> (Z -> M W unit) -> M W unit
}.

(** [strlen] of the string that starts the bytes [s]. *)
Fixpoint strlen (s : list byte) : nat :=
  match s with
  | [] => 0%nat
  | c :: rest => if Byte.eqb c x00 then 0%nat else S (strlen rest)
  end.

(** ** Call sites and macros *)

(** Where a macro is expanded: its translation unit, the block scopes
    open there, and what the compiler substitutes for the location
    macros. *)
Record CallSite : Type := {
  site_tu : Category.TranslationUnit;
  site_scopes : Category.scopes;
  __FILE__ : string;
  __LINE__ : Z;
  __PRETTY_FUNCTION__ : string
}.

Definition site_config (site : CallSite) : Config :=
  Category.tu_config (site_tu site).

(** [LOG_THIS_CATEGORY()] at a call site. *)
Definition LOG_THIS_CATEGORY (site : CallSite) : cstr :=
  Category.LOG_THIS_CATEGORY (site_tu site)
    (Category.visible_log_category (site_scopes site)).

(** [_LOG_SOURCE_INFO] *)
Definition _LOG_SOURCE_INFO (site : CallSite) : cstr * Z * cstr :=
  if def_LOG_INCLUDE_SOURCE_INFO (site_config site)
  then (Some (__FILE__ site), __LINE__ site, Some (__PRETTY_FUNCTION__ site))
  else (NULL, 0, NULL).

(** The initializer [{ sizeof(LogAttributes), 0, _LOG_SOURCE_INFO }]; the
    member it does not name, [time], is zero. *)
Definition _LOG_ATTR_INITIALIZER (site : CallSite) : LogAttributes :=
  let '(f, l, fn) := _LOG_SOURCE_INFO site in
  {| size := sizeof_LogAttributes (site_config site);
     flags := 0;
     file := f;
     line := l;
     function := fn;
     time := 0 |}.

Section Macros.

Context {W VaList : Type} {api : LogApi W VaList}.
Local Open Scope log_scope.

(** A macro argument is an expression, evaluated where the expansion puts
    it.  The arguments of one call are evaluated in an order C leaves
    open, so they come as one computation yielding all their values. *)

(** [_LOG_INIT_ATTR(_name)] *)
Definition _LOG_INIT_ATTR (site : CallSite) : M W LogAttributes :=
  log_init_attr (_LOG_ATTR_INITIALIZER site) NULL.

Definition LOG_C (site : CallSite) (_level : level_token)
    (args : M W (cstr * string * VaList)) : M W unit :=
  if LOG_LEVEL_ _level >=? LOG_COMPILE_TIME_LEVEL (site_config site) then
    _attr <- _LOG_INIT_ATTR site ;;
    a <- args ;;
    let '(_category, _fmt, va) := a in
    log_message (LOG_LEVEL_ _level) _category _attr NULL _fmt va
  else ret tt.

Definition LOG_WRITE_C (site : CallSite) (_level : level_token)
    (args : M W (cstr * list byte * nat)) : M W unit :=
  if LOG_LEVEL_ _level >=? LOG_COMPILE_TIME_LEVEL (site_config site) then
    a <- args ;;
    let '(_category, _data, _size) := a in
    log_write (LOG_LEVEL_ _level) _category _data _size NULL
  else ret tt.

Definition LOG_PRINT_C (site : CallSite) (_level : level_token)
    (_category : M W cstr) (_str : M W (list byte)) : M W unit :=
  if LOG_LEVEL_ _level >=? LOG_COMPILE_TIME_LEVEL (site_config site) then
    _s <- _str ;;
    c <- _category ;;
    log_write (LOG_LEVEL_ _level) c _s (strlen _s) NULL
  else ret tt.

Definition LOG_PRINTF_C (site : CallSite) (_level : level_token)
    (args : M W (cstr * string * VaList)) : M W unit :=
  if LOG_LEVEL_ _level >=? LOG_COMPILE_TIME_LEVEL (site_config site) then
    a <- args ;;
    let '(_category, _fmt, va) := a in
    log_printf (LOG_LEVEL_ _level) _category NULL _fmt va
  else ret tt.

Definition LOG_DUMP_C (site : CallSite) (_level : level_token)
    (args : M W (cstr * list byte * nat)) : M W unit :=
  if LOG_LEVEL_ _level >=? LOG_COMPILE_TIME_LEVEL (site_config site) then
    a <- args ;;
    let '(_category, _data, _size) := a in
    log_dump (LOG_LEVEL_ _level) _category _data _size 0 NULL
  else ret tt.

(** [&&] evaluates its right operand only when the left one holds and
    yields 0 or 1. *)
Definition LOG_ENABLED_C (site : CallSite) (_level : level_token)
    (_category : M W cstr) : M W Z :=
  if LOG_LEVEL_ _level >=? LOG_COMPILE_TIME_LEVEL (site_config site) then
    c <- _category ;;
    r <- log_enabled (LOG_LEVEL_ _level) c NULL ;;
    ret (c_int (c_true r))
  else ret 0.

(** Macros using current category *)

Definition LOG (site : CallSite) (_level : level_token)
    (args : M W (string * VaList)) : M W unit :=
  LOG_C site _level
    (a <- args ;; ret (LOG_THIS_CATEGORY site, fst a, snd a)).

Definition LOG_WRITE (site : CallSite) (_level : level_token)
    (args : M W (list byte * nat)) : M W unit :=
  LOG_WRITE_C site _level
    (a <- args ;; ret (LOG_THIS_CATEGORY site, fst a, snd a)).

Definition LOG_PRINT (site : CallSite) (_level : level_token)
    (_str : M W (list byte)) : M W unit :=
  LOG_PRINT_C site _level (ret (LOG_THIS_CATEGORY site)) _str.

Definition LOG_PRINTF (site : CallSite) (_level : level_token)
    (args : M W (string * VaList)) : M W unit :=
  LOG_PRINTF_C site _level
    (a <- args ;; ret (LOG_THIS_CATEGORY site, fst a, snd a)).

Definition LOG_DUMP (site : CallSite) (_level : level_token)
    (args : M W (list byte * nat)) : M W unit :=
  LOG_DUMP_C site _level
    (a <- args ;; ret (LOG_THIS_CATEGORY site, fst a, snd a)).

Definition LOG_ENABLED (site : CallSite) (_level : level_token) : M W Z :=
  LOG_ENABLED_C site _level (ret (LOG_THIS_CATEGORY site)).

(** [PANIC(_code, _fmt, ...)] *)
Definition PANIC (site : CallSite) (_code : M W Z)
    (args : M W (string * VaList)) : M W unit :=
  LOG site Token.PANIC args ;;
  code <- _code ;;
  panic_ code NULL HAL_Delay_Microseconds.

(** *** What the macros rely on in the functions they call *)

(** [log_init_attr] leaves alone what the initializer has filled in. *)
Definition keeps_initialized_fields : Prop :=
  forall attr reserved w attr' w',
    log_init_attr attr reserved w = Returns attr' w' ->
    size attr' = size attr /\ file attr' = file attr /\
    line attr' = line attr /\ function attr' = function attr.

(** [panic_] keeps control, with the code it was given. *)
Definition panic_never_returns : Prop :=
  forall code extra delay (w : W),
    exists w', panic_ code extra delay w = Halts code w'.

End Macros.

(** ** Hexadecimal text *)

Definition hex_digits : list byte := list_byte_of_string "0123456789abcdef".

Definition hex_digit (n : N) : byte := nth (N.to_nat n) hex_digits x00.

(** Modelled from the spec: the text [log_dump] produces for one byte
    (section 4.4), two lowercase hexadecimal characters, high nibble
    first; [log_dump] itself is declared only. *)
Definition hex_byte (b : byte) : list byte :=
  [hex_digit (N.shiftr (Byte.to_N b) 4); hex_digit (N.land (Byte.to_N b) 15)].

(** Modelled from the spec: the text [log_dump] produces for a buffer,
    byte after byte with nothing in between. *)
Definition hex_encode (data : list byte) : list byte :=
  flat_map hex_byte data.

Fixpoint index_of (c : byte) (l : list byte) (i : N) : option N :=
  match l with
  | [] => None
  | d :: rest => if Byte.eqb c d then Some i else index_of c rest (N.succ i)
  end.

(** The value of a lowercase hexadecimal digit. *)
Definition unhex_digit (c : byte) : option N := index_of c hex_digits 0%N.

Definition unhex_byte (hi lo : byte) : option byte :=
  match unhex_digit hi, unhex_digit lo with
  | Some h, Some l => Byte.of_N (h * 16 + l)
  | _, _ => None
  end.

(** Decoding of separator-free hexadecimal text. *)
Fixpoint hex_decode (text : list byte) : option (list byte) :=
  match text with
  | [] => Some []
  | hi :: lo :: rest =>
      match unhex_byte hi lo, hex_decode rest with
      | Some b, Some data => Some (b :: data)
      | _, _ => None
      end
  | [_] => None
  end.

(** A character of lowercase hexadecimal text. *)
Definition is_lower_hex (c : byte) : bool := existsb (Byte.eqb c) hex_digits.

(** ** An implementation of the interface, after the specification *)

Section SpecModel.

Context {B VaList : Type}.

(** The text a format string and its arguments render to, as the C
    library's formatter produces it when the buffer is large enough. *)
Variable render : string -> VaList -> list byte.

(** The bytes [log_dump] puts after each encoded byte when non-zero flags
    request a separator. *)
Variable dump_separator : Z -> list byte.

(** The configuration the implementation is built with. *)
Variable cfg : Config.

Definition log_message_callback_type : Type :=
  list byte -> Z -> cstr -> LogAttributes -> void_ptr -> B -> B.

Definition log_write_callback_type : Type :=
  list byte -> nat -> Z -> cstr -> void_ptr -> B -> B.

Definition log_enabled_callback_type : Type :=
  Z -> cstr -> void_ptr -> B -> Z * B.

(** Modelled from the spec: the backend registration (section 3), three
    optional callback references and one reserved pointer shared by all
    three; the header declares only [log_set_callbacks]. *)
Record Registry : Type := {
  log_msg_callback : option log_message_callback_type;
  log_write_callback : option log_write_callback_type;
  log_enabled_callback : option log_enabled_callback_type;
  reserved_context : void_ptr
}.

(** Modelled from the spec: the state the declared functions work on,
    that is the registration, whatever the backend sinks own, and the
    clock source in milliseconds since startup (sections 3 and 6). *)
Record World : Type := {
  registry : Registry;
  backend : B;
  millis : Z
}.

Definition set_backend (b : B) (w : World) : World :=
  {| registry := registry w; backend := b; millis := millis w |}.

(** Modelled from the spec: [log_set_callbacks] is declared only; section
    4.5, it replaces all three references and the shared context. *)
Definition spec_log_set_callbacks
    (log_msg : option log_message_callback_type)
    (log_write : option log_write_callback_type)
    (log_enabled : option log_enabled_callback_type)
    (reserved : void_ptr) : M World unit :=
  fun w =>
    Returns tt
      {| registry := {| log_msg_callback := log_msg;
                        log_write_callback := log_write;
                        log_enabled_callback := log_enabled;
                        reserved_context := reserved |};
         backend := backend w;
         millis := millis w |}.

(** Modelled from the spec: [log_init_attr] is declared only; section 4.3,
    the timestamp is captured from the clock at call time, as a
    [uint32_t]; the other fields stay as the caller initialized them. *)
Definition spec_log_init_attr (attr : LogAttributes) (reserved : void_ptr)
  : M World LogAttributes :=
  fun w =>
    Returns
      {| size := size attr;
         flags := flags attr;
         file := file attr;
         line := line attr;
         function := function attr;
         time := millis w mod 2 ^ 32 |}
      w.

(** Modelled from the spec: the bounded rendering inside [log_message]
    (section 4.4); a buffer of [n] characters takes the first [n - 1]
    characters of the text and the terminator. *)
Definition render_bounded (n : nat) (text : list byte) : list byte :=
  match n with
  | O => []
  | S k => firstn k text ++ [x00]
  end.

(** The size of the buffer, in characters. *)
Definition max_length : nat := Z.to_nat (LOG_MAX_STRING_LENGTH cfg).

(** Modelled from the spec: [log_message] is declared only; section 4.4,
    formatted message: render into the bounded buffer, truncate silently,
    forward to the message callback with level, category, attributes and
    the reserved context; nothing at all without a message callback. *)
Definition spec_log_message (level : Z) (category : cstr)
    (attr : LogAttributes) (reserved : void_ptr) (fmt : string)
    (args : VaList) : M World unit :=
  fun w =>
    match log_msg_callback (registry w) with
    | Some callback =>
        let buf := render_bounded max_length (render fmt args) in
        Returns tt
          (set_backend
             (callback buf level category attr
                (reserved_context (registry w)) (backend w)) w)
    | None => Returns tt w
    end.

(** Modelled from the spec: [log_write] is declared only; section 4.4, raw
    write: the caller's buffer goes to the write callback as it is. *)
Definition spec_log_write (level : Z) (category : cstr) (data : list byte)
    (size : nat) (reserved : void_ptr) : M World unit :=
  fun w =>
    match log_write_callback (registry w) with
    | Some callback =>
        Returns tt
          (set_backend
             (callback data size level category
                (reserved_context (registry w)) (backend w)) w)
    | None => Returns tt w
    end.

(** Modelled from the spec: [log_printf] is declared only; the header has
    it write the formatted string to the backend through the write
    callback, within [LOG_MAX_STRING_LENGTH]. *)
Definition spec_log_printf (level : Z) (category : cstr)
    (reserved : void_ptr) (fmt : string) (args : VaList) : M World unit :=
  fun w =>
    match log_write_callback (registry w) with
    | Some callback =>
        let text := firstn (max_length - 1) (render fmt args) in
        Returns tt
          (set_backend
             (callback text (List.length text) level category
                (reserved_context (registry w)) (backend w)) w)
    | None => Returns tt w
    end.

(** Modelled from the spec: what one byte of the input becomes in the
    dump, two characters and, for non-zero flags, the separator; and how
    many characters that is. *)
Definition dump_unit (flags : Z) (b : byte) : list byte :=
  hex_byte b ++ (if flags =? 0 then [] else dump_separator flags).

Definition dump_unit_length (flags : Z) : nat :=
  (2 + (if (flags =? 0)%Z then 0 else List.length (dump_separator flags)))%nat.

(** Modelled from the spec: the loop inside [log_dump] (section 4.4).
    Byte [i] of [data] is read and encoded behind what the buffer holds; a
    buffer that has no room left for another byte's text is flushed
    through [emit].  [n] bytes remain to be read. *)
Fixpoint dump_loop (emit : list byte -> B -> B) (flags : Z)
    (data : list byte) (i n : nat) (buf : list byte) (b : B) : B :=
  match n with
  | O =>
      match buf with
      | [] => b
      | _ => emit buf b
      end
  | S n' =>
      let buf' := buf ++ dump_unit flags (nth i data x00) in
      if (max_length <? List.length buf' + dump_unit_length flags)%nat
      then dump_loop emit flags data (S i) n' [] (emit buf' b)
      else dump_loop emit flags data (S i) n' buf' b
  end.

(** Modelled from the spec: [log_dump] is declared only; section 4.4, hex
    dump: lowercase hexadecimal, two characters per byte, no separators
    unless a flag requests them, through a bounded buffer to the write
    callback; nothing for a zero size and no read past [size]. *)
Definition spec_log_dump (level : Z) (category : cstr) (data : list byte)
    (size : nat) (flags : Z) (reserved : void_ptr) : M World unit :=
  fun w =>
    match log_write_callback (registry w) with
    | Some callback =>
        let emit chunk b :=
          callback chunk (List.length chunk) level category
            (reserved_context (registry w)) b in
        Returns tt
          (set_backend (dump_loop emit flags data 0 size [] (backend w)) w)
    | None => Returns tt w
    end.

(** Modelled from the spec: [log_enabled] is declared only; section 4.2,
    stage 2: the registered predicate decides, called with level, category
    and the reserved context; enabled when none is registered. *)
Definition spec_log_enabled (level : Z) (category : cstr)
    (reserved : void_ptr) : M World Z :=
  fun w =>
    match log_enabled_callback (registry w) with
    | Some predicate =>
        let '(r, b) :=
          predicate level category (reserved_context (registry w))
            (backend w) in
        Returns r (set_backend b w)
    | None => Returns 1 w
    end.

(** Modelled from the spec: [HAL_Delay_Microseconds] is declared extern;
    section 6, a delay primitive taking a microsecond duration. *)
Definition spec_HAL_Delay_Microseconds (delay : Z) : M World unit :=
  fun w =>
    Returns tt
      {| registry := registry w;
         backend := backend w;
         millis := millis w + delay / 1000 |}.

(** Modelled from the spec: [panic_] comes from panic.h, which is not part
    of the sources; sections 6 and 7, the fatal-path hook takes the error
    code and control never comes back. *)
Definition spec_panic_ (code : Z) (extra : void_ptr)
    (delay : Z -> M World unit) : M World unit :=
  fun w => Halts code w.

#[local] Instance SpecApi : LogApi World VaList := {|
  log_message := spec_log_message;
  log_write := spec_log_write;
  log_printf := spec_log_printf;
  log_dump := spec_log_dump;
  log_enabled := spec_log_enabled;
  log_init_attr := spec_log_init_attr;
  HAL_Delay_Microseconds := spec_HAL_Delay_Microseconds;
  panic_ := spec_panic_
|}.

End SpecModel.

Arguments SpecApi {B VaList} render dump_separator cfg.

(** ** A backend that records what it is handed

    The backend state is the list of callback invocations so far, oldest
    first. *)
Module Recorder.

Inductive Call : Type :=
| Message (msg : list byte) (level : Z) (category : cstr)
    (attr : LogAttributes) (reserved : void_ptr)
| Written (data : list byte) (size : nat) (level : Z) (category : cstr)
    (reserved : void_ptr)
| Asked (level : Z) (category : cstr) (reserved : void_ptr).

Definition on_message : @log_message_callback_type (list Call) :=
  fun msg level category attr reserved b =>
    b ++ [Message msg level category attr reserved].

(** Keeps the [size] bytes it is given. *)
Definition on_write : @log_write_callback_type (list Call) :=
  fun data size level category reserved b =>
    b ++ [Written (firstn size data) size level category reserved].

(** Enabled from [threshold] up. *)
Definition on_enabled (threshold : Z) : @log_enabled_callback_type (list Call) :=
  fun level category reserved b =>
    (c_int (level >=? threshold), b ++ [Asked level category reserved]).

(** A formatter for format strings without conversions. *)
Definition literal (fmt : string) (args : list Z) : list byte :=
  list_byte_of_string fmt.

Definition no_separator (flags : Z) : list byte := [].

Definition api (cfg : Config) : LogApi (@World (list Call)) (list Z) :=
  SpecApi literal no_separator cfg.

Definition unregistered : @Registry (list Call) :=
  {| log_msg_callback := None;
     log_write_callback := None;
     log_enabled_callback := None;
     reserved_context := NULL |}.

Definition registered (threshold : Z) : @Registry (list Call) :=
  {| log_msg_callback := Some on_message;
     log_write_callback := Some on_write;
     log_enabled_callback := Some (on_enabled threshold);
     reserved_context := Some 7 |}.

Definition startup (r : @Registry (list Call)) : @World (list Call) :=
  {| registry := r; backend := []; millis := 1234 |}.

Definition config_with_floor (floor : Z) : Config :=
  {| def_LOG_COMPILE_TIME_LEVEL := Some floor;
     def_LOG_MAX_STRING_LENGTH := None;
     def_LOG_MODULE_CATEGORY := None;
     def_LOG_INCLUDE_SOURCE_INFO := false;
     sizeof_LogAttributes := 24 |}.

(** A build that defines [LOG_INCLUDE_SOURCE_INFO]. *)
Definition debug_config : Config :=
  {| def_LOG_COMPILE_TIME_LEVEL := None;
     def_LOG_MAX_STRING_LENGTH := None;
     def_LOG_MODULE_CATEGORY := None;
     def_LOG_INCLUDE_SOURCE_INFO := true;
     sizeof_LogAttributes := 24 |}.

(** A call site in a function body of a unit without a source category. *)
Definition site_in (cfg : Config) (st : Category.scopes) : CallSite :=
  {| site_tu := {| Category.tu_config := cfg;
                   Category._log_source_category_impl := None |};
     site_scopes := st;
     __FILE__ := "main.c";
     __LINE__ := 42;
     __PRETTY_FUNCTION__ := "main" |}.

(** A state with all three callbacks registered, the predicate enabling
    every level. *)
Definition ready : @World (list Call) := startup (registered 1).

(** A state with no callback registered. *)
Definition bare : @World (list Call) := startup unregistered.

(** A site of a default build and one of a build whose floor is INFO. *)
Definition default_site : CallSite := site_in default_config [].
Definition info_site : CallSite := site_in (config_with_floor LOG_LEVEL_INFO) [].

(** The attributes a default build captures in [ready]. *)
Definition captured : LogAttributes :=
  {| size := 24; flags := 0; file := NULL; line := 0; function := NULL;
     time := 1234 |}.

End Recorder.

(** ** An instrumented interface

    Nothing is assumed of the declared functions beyond their types: each
    one only records that it was called, oldest call first.  Of [panic_]
    it is also recorded that control stays with it. *)
Module Tracing.

Inductive ApiCall : Type :=
| Called_log_message (level : Z) (category : cstr) (attr : LogAttributes)
    (reserved : void_ptr) (fmt : string) (args : list Z)
| Called_log_write (level : Z) (category : cstr) (data : list byte)
    (size : nat) (reserved : void_ptr)
| Called_log_printf (level : Z) (category : cstr) (reserved : void_ptr)
    (fmt : string) (args : list Z)
| Called_log_dump (level : Z) (category : cstr) (data : list byte)
    (size : nat) (flags : Z) (reserved : void_ptr)
| Called_log_enabled (level : Z) (category : cstr) (reserved : void_ptr)
| Called_log_init_attr (attr : LogAttributes) (reserved : void_ptr)
| Called_HAL_Delay_Microseconds (delay : Z)
| Called_panic_ (code : Z) (extra : void_ptr).

Definition called {A : Type} (c : ApiCall) (a : A) : M (list ApiCall) A :=
  fun w => Returns a (w ++ [c]).

Definition api : LogApi (list ApiCall) (list Z) := {|
  log_message := fun level category attr reserved fmt args =>
    called (Called_log_message level category attr reserved fmt args) tt;
  log_write := fun level category data size reserved =>
    called (Called_log_write level category data size reserved) tt;
  log_printf := fun level category reserved fmt args =>
    called (Called_log_printf level category reserved fmt args) tt;
  log_dump := fun level category data size flags reserved =>
    called (Called_log_dump level category data size flags reserved) tt;
  log_enabled := fun level category reserved =>
    called (Called_log_enabled level category reserved) 1;
  log_init_attr := fun attr reserved =>
    called (Called_log_init_attr attr reserved) attr;
  HAL_Delay_Microseconds := fun delay =>
    called (Called_HAL_Delay_Microseconds delay) tt;
  panic_ := fun code extra delay =>
    fun w => Halts code (w ++ [Called_panic_ code extra])
|}.

(** The calls a macro expansion makes with side-effect free arguments
    before it returns or halts. *)
Definition calls_of {A : Type} (m : M (list ApiCall) A) : list ApiCall :=
  match m [] with
  | Returns _ w => w
  | Halts _ w => w
  end.

Definition is_log_message (c : ApiCall) : bool :=
  match c with
  | Called_log_message _ _ _ _ _ _ => true
  | _ => false
  end.

End Tracing.

(** ** Examples of category declarations *)
Module Examples.

Import Category.

(** A unit built with defaults that declares [LOG_SOURCE_CATEGORY("src")]. *)
Definition unit_with_source : TranslationUnit :=
  {| tu_config := default_config;
     _log_source_category_impl := Some (Some "src"%string) |}.


(** [{ LOG_CATEGORY(NULL); LOG_THIS_CATEGORY(); }] *)
Definition declared_null : list item :=
  block [LOG_CATEGORY NULL; Site].

(** [{ LOG_CATEGORY("a"); { LOG_CATEGORY("b"); LOG_THIS_CATEGORY(); }
       { LOG_THIS_CATEGORY(); } LOG_THIS_CATEGORY(); }] *)
Definition nested_and_sibling : list item :=
  block (LOG_CATEGORY (Some "a"%string)
         :: block [LOG_CATEGORY (Some "b"%string); Site]
         ++ block [Site]
         ++ [Site]).

End Examples.

(** ** Category resolver (the C++ branch of the header)

    [_LogCategory] names, at namespace scope, the type
    [_LogCategoryWrapper<_LogGlobalCategory>];
    [LOG_SOURCE_CATEGORY(_name)] specializes that wrapper and
    [LOG_CATEGORY(_name)] declares a [struct _LogCategory] of its own in
    the enclosing scope, which hides the outer one.

    A specialization counts from its declaration on, so here a
    [TranslationUnit] says what is declared before the function body that
    is resolved: its field holds the name the specialization returns, if
    one has been declared by then.  The order of the declarations of a
    whole unit is the matter of [Units.resolve_cpp]. *)
Module CategoryCpp.

Import Category.

(** [_LogCategoryWrapper<T>::name()] of the primary template. *)
Definition _LogCategoryWrapper_name (tu : TranslationUnit) : cstr :=
  LOG_MODULE_CATEGORY (tu_config tu).

(** [name()] of the type the namespace-scope typedef [_LogCategory]
    stands for: the specialization when the unit has one. *)
Definition _LogGlobalCategory_name (tu : TranslationUnit) : cstr :=
  match _log_source_category_impl tu with
  | Some _name => _name
  | None => _LogCategoryWrapper_name tu
  end.

(** [LOG_THIS_CATEGORY()], that is [_LogCategory::name()]: of the
    innermost [struct _LogCategory] in scope, else of the typedef. *)
Fixpoint LOG_THIS_CATEGORY (tu : TranslationUnit) (st : scopes) : cstr :=
  match st with
  | [] => _LogGlobalCategory_name tu
  | Some _name :: _ => _name
  | None :: outer => LOG_THIS_CATEGORY tu outer
  end.

(** A scope takes one definition of [struct _LogCategory]; at namespace
    scope the name is the typedef's already. *)
Definition declare (_name : cstr) (st : scopes) : option scopes :=
  match st with
  | None :: outer => Some (Some _name :: outer)
  | Some _ :: _ => None
  | [] => None
  end.

(** Elaboration of a function body, given what is declared before it. *)
Fixpoint resolve (tu : TranslationUnit) (st : scopes) (body : list item)
  : option (list cstr * scopes) :=
  match body with
  | [] => Some ([], st)
  | Open :: rest => resolve tu (None :: st) rest
  | Close :: rest =>
      match st with
      | _ :: outer => resolve tu outer rest
      | [] => None
      end
  | LOG_CATEGORY _name :: rest =>
      match declare _name st with
      | Some st' => resolve tu st' rest
      | None => None
      end
  | Site :: rest =>
      match resolve tu st rest with
      | Some (cs, st') => Some (LOG_THIS_CATEGORY tu st :: cs, st')
      | None => None
      end
  end.

(** No [struct _LogCategory] is in scope: [_LogCategory] is the typedef. *)
Definition names_typedef (st : scopes) : bool :=
  forallb (fun frame => match frame with None => true | Some _ => false end) st.

(** Some call site of the body names the typedef.  [_LogCategory::name()]
    needs the wrapper's definition there, which instantiates the primary
    template unless a specialization has been declared. *)
Fixpoint instantiates (st : scopes) (body : list item) : bool :=
  match body with
  | [] => false
  | Open :: rest => instantiates (None :: st) rest
  | Close :: rest =>
      match st with
      | _ :: outer => instantiates outer rest
      | [] => false
      end
  | LOG_CATEGORY _name :: rest =>
      match declare _name st with
      | Some st' => instantiates st' rest
      | None => false
      end
  | Site :: rest => names_typedef st || instantiates st rest
  end.

End CategoryCpp.



(** ** Whole translation units

    What a unit holds at file scope, in the order it is written: uses of
    [LOG_SOURCE_CATEGORY] and function definitions, each given by the
    statements between its braces. *)
Module Units.

Import Category.

Inductive declaration : Type :=
| LOG_SOURCE_CATEGORY (_name : cstr)
| Body (body : list item).

Fixpoint source_categories (u : list declaration) : list cstr :=
  match u with
  | [] => []
  | LOG_SOURCE_CATEGORY _name :: rest => _name :: source_categories rest
  | Body _ :: rest => source_categories rest
  end.

Definition unit_of (cfg : Config) (source : option cstr) : TranslationUnit :=
  {| tu_config := cfg; _log_source_category_impl := source |}.

(** The function bodies of a unit, each resolved by [resolve_body] from
    file scope; a body has to close the blocks it opens. *)
Fixpoint resolve_bodies
    (resolve_body : list item -> option (list cstr * scopes))
    (u : list declaration) : option (list cstr) :=
  match u with
  | [] => Some []
  | LOG_SOURCE_CATEGORY _ :: rest => resolve_bodies resolve_body rest
  | Body body :: rest =>
      if balanced_from 0 body then
        match resolve_body (block body) with
        | Some (cs, _) =>
            match resolve_bodies resolve_body rest with
            | Some cs' => Some (cs ++ cs')
            | None => None
            end
        | None => None
        end
      else None
  end.

(** In C [LOG_SOURCE_CATEGORY] defines the function
    [_log_source_category_impl]: a unit takes one definition of it, and
    the weak reference binds to it wherever in the unit it stands. *)
Definition c_unit (cfg : Config) (u : list declaration)
  : option TranslationUnit :=
  match source_categories u with
  | [] => Some (unit_of cfg None)
  | [_name] => Some (unit_of cfg (Some _name))
  | _ => None
  end.

(** The categories of the call sites of a unit compiled as C, in program
    order; [None] when the compiler rejects the unit. *)
Definition resolve_c (cfg : Config) (u : list declaration)
  : option (list cstr) :=
  match c_unit cfg u with
  | Some tu => resolve_bodies (Category.resolve tu []) u
  | None => None
  end.

(** The same for a unit compiled as C++.  [specialization] is what
    [LOG_SOURCE_CATEGORY] has declared so far and [instantiated] whether a
    call site so far has instantiated the primary template; a
    specialization is rejected after an instantiation and after another
    specialization. *)
Fixpoint resolve_cpp (cfg : Config) (specialization : option cstr)
    (instantiated : bool) (u : list declaration) : option (list cstr) :=
  match u with
  | [] => Some []
  | LOG_SOURCE_CATEGORY _name :: rest =>
      match specialization with
      | Some _ => None
      | None =>
          if instantiated then None
          else resolve_cpp cfg (Some _name) false rest
      end
  | Body body :: rest =>
      if balanced_from 0 body then
        match CategoryCpp.resolve (unit_of cfg specialization) [] (block body)
        with
        | Some (cs, _) =>
            match
              resolve_cpp cfg specialization
                (instantiated || CategoryCpp.instantiates [] (block body)) rest
            with
            | Some cs' => Some (cs ++ cs')
            | None => None
            end
        | None => None
        end
      else None
  end.



End Units.

(** Examples of units. *)
Module UnitExamples.

Import Category Units.

(** [void f() { LOG_THIS_CATEGORY(); }  LOG_SOURCE_CATEGORY("src")
     void g() { LOG_THIS_CATEGORY(); }] *)
Definition source_after_use : list declaration :=
  [Body [Site]; LOG_SOURCE_CATEGORY (Some "src"%string); Body [Site]].

(** [void f() { LOG_CATEGORY("a"); LOG_THIS_CATEGORY(); }
     LOG_SOURCE_CATEGORY("src")  void g() { LOG_THIS_CATEGORY(); }] *)
Definition source_after_scoped_use : list declaration :=
  [Body [LOG_CATEGORY (Some "a"%string); Site];
   LOG_SOURCE_CATEGORY (Some "src"%string); Body [Site]].

(** [LOG_SOURCE_CATEGORY("src")
     void f() { LOG_THIS_CATEGORY();
                { LOG_CATEGORY("b"); LOG_THIS_CATEGORY(); }
                LOG_THIS_CATEGORY(); }] *)
Definition source_then_body : list declaration :=
  [LOG_SOURCE_CATEGORY (Some "src"%string);
   Body (Site :: block [LOG_CATEGORY (Some "b"%string); Site] ++ [Site])].

End UnitExamples.

(** ** The builds the header distinguishes

    [LOG_DISABLE] replaces every logging macro by an empty expansion (and
    the enabled checks by 0); [DEBUG_BUILD] decides whether the
    [LOG_DEBUG] counterparts stand for the logging macros or for nothing.
    [PANIC] is defined once, after both. *)
Record Build : Type := {
  def_LOG_DISABLE : bool;
  def_DEBUG_BUILD : bool
}.

Module Built.

Section Selected.

Context {W VaList : Type} {api : LogApi W VaList}.
Variable build : Build.
Local Open Scope log_scope.

Definition LOG_THIS_CATEGORY (site : CallSite) : cstr :=
  if def_LOG_DISABLE build then NULL else LOG_THIS_CATEGORY site.

Definition LOG_C (site : CallSite) (_level : level_token)
    (args : M W (cstr * string * VaList)) : M W unit :=
  if def_LOG_DISABLE build then ret tt else LOG_C site _level args.

Definition LOG_WRITE_C (site : CallSite) (_level : level_token)
    (args : M W (cstr * list byte * nat)) : M W unit :=
  if def_LOG_DISABLE build then ret tt else LOG_WRITE_C site _level args.

Definition LOG_PRINT_C (site : CallSite) (_level : level_token)
    (_category : M W cstr) (_str : M W (list byte)) : M W unit :=
  if def_LOG_DISABLE build then ret tt
  else LOG_PRINT_C site _level _category _str.

Definition LOG_PRINTF_C (site : CallSite) (_level : level_token)
    (args : M W (cstr * string * VaList)) : M W unit :=
  if def_LOG_DISABLE build then ret tt else LOG_PRINTF_C site _level args.

Definition LOG_DUMP_C (site : CallSite) (_level : level_token)
    (args : M W (cstr * list byte * nat)) : M W unit :=
  if def_LOG_DISABLE build then ret tt else LOG_DUMP_C site _level args.

Definition LOG_ENABLED_C (site : CallSite) (_level : level_token)
    (_category : M W cstr) : M W Z :=
  if def_LOG_DISABLE build then ret 0 else LOG_ENABLED_C site _level _category.

Definition LOG (site : CallSite) (_level : level_token)
    (args : M W (string * VaList)) : M W unit :=
  if def_LOG_DISABLE build then ret tt else LOG site _level args.

Definition LOG_WRITE (site : CallSite) (_level : level_token)
    (args : M W (list byte * nat)) : M W unit :=
  if def_LOG_DISABLE build then ret tt else LOG_WRITE site _level args.

Definition LOG_PRINT (site : CallSite) (_level : level_token)
    (_str : M W (list byte)) : M W unit :=
  if def_LOG_DISABLE build then ret tt else LOG_PRINT site _level _str.

Definition LOG_PRINTF (site : CallSite) (_level : level_token)
    (args : M W (string * VaList)) : M W unit :=
  if def_LOG_DISABLE build then ret tt else LOG_PRINTF site _level args.

Definition LOG_DUMP (site : CallSite) (_level : level_token)
    (args : M W (list byte * nat)) : M W unit :=
  if def_LOG_DISABLE build then ret tt else LOG_DUMP site _level args.

Definition LOG_ENABLED (site : CallSite) (_level : level_token) : M W Z :=
  if def_LOG_DISABLE build then ret 0 else LOG_ENABLED site _level.

(** The debugging counterparts: [#ifdef DEBUG_BUILD]. *)

Definition LOG_DEBUG (site : CallSite) (_level : level_token)
    (args : M W (string * VaList)) : M W unit :=
  if def_DEBUG_BUILD build then LOG site _level args else ret tt.

Definition LOG_DEBUG_C (site : CallSite) (_level : level_token)
    (args : M W (cstr * string * VaList)) : M W unit :=
  if def_DEBUG_BUILD build then LOG_C site _level args else ret tt.

Definition LOG_DEBUG_WRITE (site : CallSite) (_level : level_token)
    (args : M W (list byte * nat)) : M W unit :=
  if def_DEBUG_BUILD build then LOG_WRITE site _level args else ret tt.

Definition LOG_DEBUG_WRITE_C (site : CallSite) (_level : level_token)
    (args : M W (cstr * list byte * nat)) : M W unit :=
  if def_DEBUG_BUILD build then LOG_WRITE_C site _level args else ret tt.

Definition LOG_DEBUG_PRINT (site : CallSite) (_level : level_token)
    (_str : M W (list byte)) : M W unit :=
  if def_DEBUG_BUILD build then LOG_PRINT site _level _str else ret tt.

Definition LOG_DEBUG_PRINT_C (site : CallSite) (_level : level_token)
    (_category : M W cstr) (_str : M W (list byte)) : M W unit :=
  if def_DEBUG_BUILD build then LOG_PRINT_C site _level _category _str
  else ret tt.

Definition LOG_DEBUG_PRINTF (site : CallSite) (_level : level_token)
    (args : M W (string * VaList)) : M W unit :=
  if def_DEBUG_BUILD build then LOG_PRINTF site _level args else ret tt.

Definition LOG_DEBUG_PRINTF_C (site : CallSite) (_level : level_token)
    (args : M W (cstr * string * VaList)) : M W unit :=
  if def_DEBUG_BUILD build then LOG_PRINTF_C site _level args else ret tt.

Definition LOG_DEBUG_DUMP (site : CallSite) (_level : level_token)
    (args : M W (list byte * nat)) : M W unit :=
  if def_DEBUG_BUILD build then LOG_DUMP site _level args else ret tt.

Definition LOG_DEBUG_DUMP_C (site : CallSite) (_level : level_token)
    (args : M W (cstr * list byte * nat)) : M W unit :=
  if def_DEBUG_BUILD build then LOG_DUMP_C site _level args else ret tt.

(** [PANIC(_code, _fmt, ...)], with the [LOG] of the build. *)
Definition PANIC (site : CallSite) (_code : M W Z)
    (args : M W (string * VaList)) : M W unit :=
  LOG site Token.PANIC args ;;
  code <- _code ;;
  panic_ code NULL HAL_Delay_Microseconds.

End Selected.

End Built.

(** A release build and a debug build, both with logging. *)
Definition release_build : Build :=
  {| def_LOG_DISABLE := false; def_DEBUG_BUILD := false |}.

Definition debug_build : Build :=
  {| def_LOG_DISABLE := false; def_DEBUG_BUILD := true |}.

(** A build without logging. *)
Definition silent_build : Build :=
  {| def_LOG_DISABLE := true; def_DEBUG_BUILD := true |}.

(** * Properties *)

(** ** The level scale *)

Lemma thresholds_values : thresholds = [1; 30; 40; 50; 60; 70].
Proof. reflexivity. Qed.

Lemma LOG_LEVEL_positive (t : level_token) : 1 <= LOG_LEVEL_ t <= 70.
Proof. destruct t; split; vm_compute; discriminate. Qed.

Lemma LOG_LEVEL_in_thresholds (t : level_token) : In (LOG_LEVEL_ t) thresholds.
Proof. destruct t; cbn; tauto. Qed.

Lemma passes_floor_iff (cfg : Config) (t : level_token) :
  passes_floor cfg t = true <-> LOG_COMPILE_TIME_LEVEL cfg <= LOG_LEVEL_ t.
Proof. unfold passes_floor. rewrite Z.geb_le. tauto. Qed.

Lemma below_floor_iff (cfg : Config) (t : level_token) :
  passes_floor cfg t = false <-> LOG_LEVEL_ t < LOG_COMPILE_TIME_LEVEL cfg.
Proof.
  unfold passes_floor. rewrite Z.geb_leb, Z.leb_gt. tauto.
Qed.

(** C6, as stated, fails: [DEFAULT_LEVEL] is one of the legacy aliases and
    its value, 0, is none of the thresholds of the scale. *)
Lemma DEFAULT_LEVEL_off_the_scale :
  ~ (forall a, In a legacy_aliases -> In a thresholds).
Proof.
  intros H.
  assert (Hd : In DEFAULT_LEVEL thresholds) by (apply H; cbn; tauto).
  cbn in Hd. unfold DEFAULT_LEVEL in Hd.
  repeat (destruct Hd as [Hd | Hd]; [discriminate Hd |]).
  exact Hd.
Qed.

(** C6, amended: the thresholds are TRACE=1, INFO=30, WARN=40, ERROR=50,
    PANIC=60, NONE=70, strictly increasing; ALL and TRACE are both 1, so
    whatever is computed from a level (a name lookup included) is the same
    for both; every legacy alias other than [DEFAULT_LEVEL] equals a
    threshold; [DEFAULT_LEVEL] is 0, below all of them. *)
Theorem LogLevel_scale :
  (LOG_LEVEL_TRACE = 1 /\ LOG_LEVEL_INFO = 30 /\ LOG_LEVEL_WARN = 40 /\
   LOG_LEVEL_ERROR = 50 /\ LOG_LEVEL_PANIC = 60 /\ LOG_LEVEL_NONE = 70) /\
  strictly_increasing thresholds = true /\
  (LOG_LEVEL_ALL = 1 /\ LOG_LEVEL_ALL = LOG_LEVEL_TRACE /\
   forall (A : Type) (level_name : Z -> A),
     level_name LOG_LEVEL_ALL = level_name LOG_LEVEL_TRACE) /\
  (forall a, In a mapped_aliases -> In a thresholds) /\
  (forall a, In a legacy_aliases <-> In a mapped_aliases \/ a = DEFAULT_LEVEL) /\
  (DEFAULT_LEVEL = 0 /\ forall t, In t thresholds -> DEFAULT_LEVEL < t).
Proof.
  split; [repeat split |].
  split; [reflexivity |].
  split; [repeat split |].
  split.
  { intros a Ha. cbn in Ha.
    repeat (destruct Ha as [Ha | Ha]; [subst a; cbn; tauto |]).
    contradiction. }
  split.
  { intros a. unfold legacy_aliases, mapped_aliases. cbn. intuition. }
  split; [reflexivity |].
  intros t Ht. cbn in Ht.
  repeat (destruct Ht as [Ht | Ht]; [subst t; reflexivity |]).
  contradiction.
Qed.

(** ** The compile-time floor *)

Section Floor.

Context {W VaList : Type} {api : LogApi W VaList}.
Local Open Scope log_scope.

Lemma guard_true (site : CallSite) (_level : level_token) :
  LOG_COMPILE_TIME_LEVEL (site_config site) <= LOG_LEVEL_ _level ->
  (LOG_LEVEL_ _level >=? LOG_COMPILE_TIME_LEVEL (site_config site)) = true.
Proof. intros H. apply Z.geb_le. exact H. Qed.

Lemma guard_false (site : CallSite) (_level : level_token) :
  LOG_LEVEL_ _level < LOG_COMPILE_TIME_LEVEL (site_config site) ->
  (LOG_LEVEL_ _level >=? LOG_COMPILE_TIME_LEVEL (site_config site)) = false.
Proof. intros H. rewrite Z.geb_leb. apply Z.leb_gt. exact H. Qed.

(** C2: below the compile-time floor each of the five wrapper macros
    leaves the program state as it found it and returns, whatever the
    declared functions do when called and whatever evaluating the macro's
    arguments would do: nothing of the guarded body runs, so no attribute
    record is built and nothing reaches a backend. *)
Theorem below_floor_no_side_effect (site : CallSite) (_level : level_token) :
  LOG_LEVEL_ _level < LOG_COMPILE_TIME_LEVEL (site_config site) ->
  forall w : W,
    (forall args, LOG_C site _level args w = Returns tt w) /\
    (forall args, LOG_WRITE_C site _level args w = Returns tt w) /\
    (forall _category _str,
        LOG_PRINT_C site _level _category _str w = Returns tt w) /\
    (forall args, LOG_PRINTF_C site _level args w = Returns tt w) /\
    (forall args, LOG_DUMP_C site _level args w = Returns tt w).
Proof.
  intros Hlt w. apply guard_false in Hlt.
  unfold LOG_C, LOG_WRITE_C, LOG_PRINT_C, LOG_PRINTF_C, LOG_DUMP_C.
  rewrite Hlt. repeat split.
Qed.

(** C10: when the build leaves [LOG_COMPILE_TIME_LEVEL] undefined the
    floor is [LOG_LEVEL_ALL], that is 1; every level token then passes the
    guard, and each wrapper macro is its guarded body. *)
Theorem default_floor_strips_nothing (site : CallSite) :
  def_LOG_COMPILE_TIME_LEVEL (site_config site) = None ->
  LOG_COMPILE_TIME_LEVEL (site_config site) = LOG_LEVEL_ALL /\
  LOG_LEVEL_ALL = 1 /\
  forall _level : level_token,
    passes_floor (site_config site) _level = true /\
    (forall args,
        LOG_C site _level args =
        (_attr <- _LOG_INIT_ATTR site ;;
         a <- args ;;
         let '(_category, _fmt, va) := a in
         log_message (LOG_LEVEL_ _level) _category _attr NULL _fmt va)) /\
    (forall args,
        LOG_WRITE_C site _level args =
        (a <- args ;;
         let '(_category, _data, _size) := a in
         log_write (LOG_LEVEL_ _level) _category _data _size NULL)) /\
    (forall _category _str,
        LOG_PRINT_C site _level _category _str =
        (_s <- _str ;;
         c <- _category ;;
         log_write (LOG_LEVEL_ _level) c _s (strlen _s) NULL)) /\
    (forall args,
        LOG_PRINTF_C site _level args =
        (a <- args ;;
         let '(_category, _fmt, va) := a in
         log_printf (LOG_LEVEL_ _level) _category NULL _fmt va)) /\
    (forall args,
        LOG_DUMP_C site _level args =
        (a <- args ;;
         let '(_category, _data, _size) := a in
         log_dump (LOG_LEVEL_ _level) _category _data _size 0 NULL)).
Proof.
  intros Hundef.
  assert (Hfloor : LOG_COMPILE_TIME_LEVEL (site_config site) = LOG_LEVEL_ALL).
  { unfold LOG_COMPILE_TIME_LEVEL. rewrite Hundef. reflexivity. }
  split; [exact Hfloor |]. split; [reflexivity |].
  intros _level.
  assert (Hguard :
    (LOG_LEVEL_ _level >=? LOG_COMPILE_TIME_LEVEL (site_config site)) = true).
  { apply guard_true. rewrite Hfloor.
    pose proof (LOG_LEVEL_positive _level) as Hpos.
    unfold LOG_LEVEL_ALL. lia. }
  split; [exact Hguard |].
  unfold LOG_C, LOG_WRITE_C, LOG_PRINT_C, LOG_PRINTF_C, LOG_DUMP_C.
  rewrite Hguard. repeat split.
Qed.

End Floor.

(** At a site whose floor is INFO, with the instrumented interface, TRACE
    is below the floor. *)
Lemma below_floor_no_side_effect_witness :
  LOG_LEVEL_ Token.TRACE
    < LOG_COMPILE_TIME_LEVEL
        (site_config (Recorder.site_in (Recorder.config_with_floor 30) [])) /\
  forall args,
    LOG_C (api := Tracing.api)
      (Recorder.site_in (Recorder.config_with_floor 30) []) Token.TRACE args []
    = Returns tt [].
Proof.
  split.
  - reflexivity.
  - apply (below_floor_no_side_effect (api := Tracing.api)
             (Recorder.site_in (Recorder.config_with_floor 30) [])
             Token.TRACE).
    reflexivity.
Defined.

(** The default build, with the instrumented interface. *)
Lemma default_floor_strips_nothing_witness :
  def_LOG_COMPILE_TIME_LEVEL
    (site_config (Recorder.site_in default_config [])) = None /\
  passes_floor (site_config (Recorder.site_in default_config []))
    Token.PANIC = true.
Proof.
  split.
  - reflexivity.
  - apply (default_floor_strips_nothing (api := Tracing.api)
             (Recorder.site_in default_config [])).
    reflexivity.
Defined.

(** ** The category resolver *)

Section CategoryFacts.

Import Category.

Variable tu : TranslationUnit.

Lemma visible_undeclared (pre : scopes) (st : scopes) :
  Forall (fun frame => frame = None) pre ->
  visible_log_category (pre ++ st) = visible_log_category st.
Proof.
  induction 1 as [| frame pre Hframe _ IH]; cbn.
  - reflexivity.
  - subst frame. exact IH.
Qed.

Lemma visible_innermost (pre : scopes) (name : cstr) (outer : scopes) :
  Forall (fun frame => frame = None) pre ->
  visible_log_category (pre ++ Some name :: outer) = name.
Proof.
  intros Hpre. rewrite visible_undeclared by exact Hpre. reflexivity.
Qed.

Lemma resolve_app (body rest : list item) :
  forall st,
    resolve tu st (body ++ rest) =
    match resolve tu st body with
    | Some (cs, st') =>
        match resolve tu st' rest with
        | Some (cs', st'') => Some (cs ++ cs', st'')
        | None => None
        end
    | None => None
    end.
Proof.
  induction body as [| i body IH]; intros st; cbn [app resolve].
  - destruct (resolve tu st rest) as [[cs' st''] |]; reflexivity.
  - destruct i.
    + apply IH.
    + destruct st as [| frame outer]; [reflexivity | apply IH].
    + destruct (declare _name st) as [st' |]; [apply IH | reflexivity].
    + rewrite IH.
      destruct (resolve tu st body) as [[cs st'] |]; [| reflexivity].
      destruct (resolve tu st' rest) as [[cs' st''] |]; reflexivity.
Qed.




End CategoryFacts.

Example nested_and_sibling_categories :
  Category.resolve Examples.unit_with_source [] Examples.nested_and_sibling
  = Some ([Some "b"; Some "a"; Some "a"]%string, []).
Proof. reflexivity. Qed.

(** ** Sequencing *)

Section Sequencing.

Context {W : Type}.

Lemma bind_ret {A B : Type} (a : A) (k : A -> M W B) (w : W) :
  bind (ret a) k w = k a w.
Proof. reflexivity. Qed.

Lemma bind_assoc {A B C : Type} (m : M W A) (f : A -> M W B)
    (g : B -> M W C) (w : W) :
  bind (bind m f) g w = bind m (fun a => bind (f a) g) w.
Proof. unfold bind. destruct (m w); reflexivity. Qed.

Lemma bind_returns {A B : Type} (m : M W A) (k : A -> M W B) (w w' : W)
    (a : A) :
  m w = Returns a w' -> bind m k w = k a w'.
Proof. intros H. unfold bind. rewrite H. reflexivity. Qed.

Lemma bind_halts {A B : Type} (m : M W A) (k : A -> M W B) (w w' : W)
    (code : Z) :
  m w = Halts code w' -> bind m k w = Halts code w'.
Proof. intros H. unfold bind. rewrite H. reflexivity. Qed.

(** A sequence whose last step never returns never returns. *)
Lemma bind_never_returns {A B : Type} (m : M W A) (k : A -> M W B) (w : W) :
  (forall a w1 b w2, k a w1 <> Returns b w2) ->
  forall b w2, bind m k w <> Returns b w2.
Proof.
  intros Hk b w2. unfold bind.
  destruct (m w) as [a w1 | code w1]; [apply Hk | discriminate].
Qed.

End Sequencing.

(** ** Attribute capture *)

Lemma initializer_size (site : CallSite) :
  size (_LOG_ATTR_INITIALIZER site) = sizeof_LogAttributes (site_config site).
Proof.
  unfold _LOG_ATTR_INITIALIZER.
  destruct (_LOG_SOURCE_INFO site) as [[f l] fn]. reflexivity.
Qed.

Lemma initializer_without_source_info (site : CallSite) :
  def_LOG_INCLUDE_SOURCE_INFO (site_config site) = false ->
  file (_LOG_ATTR_INITIALIZER site) = NULL /\
  line (_LOG_ATTR_INITIALIZER site) = 0 /\
  function (_LOG_ATTR_INITIALIZER site) = NULL.
Proof.
  intros Hoff. unfold _LOG_ATTR_INITIALIZER, _LOG_SOURCE_INFO.
  rewrite Hoff. repeat split.
Qed.

Lemma initializer_with_source_info (site : CallSite) :
  def_LOG_INCLUDE_SOURCE_INFO (site_config site) = true ->
  file (_LOG_ATTR_INITIALIZER site) = Some (__FILE__ site) /\
  line (_LOG_ATTR_INITIALIZER site) = __LINE__ site /\
  function (_LOG_ATTR_INITIALIZER site) = Some (__PRETTY_FUNCTION__ site).
Proof.
  intros Hon. unfold _LOG_ATTR_INITIALIZER, _LOG_SOURCE_INFO.
  rewrite Hon. repeat split.
Qed.

Section Attributes.

Context {W VaList : Type} {api : LogApi W VaList}.
Local Open Scope log_scope.

(** C9: provided [log_init_attr] keeps the fields the initializer filled
    in, the record [_LOG_INIT_ATTR] builds has [size] equal to
    [sizeof(LogAttributes)] with or without [LOG_INCLUDE_SOURCE_INFO], and
    without it [file] and [function] are null and [line] is 0; this is the
    record [LOG_C] hands to [log_message]. *)
Theorem attributes_built_for_dispatch (site : CallSite) :
  keeps_initialized_fields ->
  forall (w : W) (_attr : LogAttributes) (w' : W),
    _LOG_INIT_ATTR site w = Returns _attr w' ->
    (size _attr = sizeof_LogAttributes (site_config site) /\
     (def_LOG_INCLUDE_SOURCE_INFO (site_config site) = false ->
      file _attr = NULL /\ line _attr = 0 /\ function _attr = NULL)) /\
    (forall _level args,
        LOG_COMPILE_TIME_LEVEL (site_config site) <= LOG_LEVEL_ _level ->
        LOG_C site _level args w =
        (a <- args ;;
         let '(_category, _fmt, va) := a in
         log_message (LOG_LEVEL_ _level) _category _attr NULL _fmt va) w').
Proof.
  intros Hkeep w _attr w' Hinit.
  unfold _LOG_INIT_ATTR in Hinit.
  destruct (Hkeep _ _ _ _ _ Hinit) as (Hsize & Hfile & Hline & Hfun).
  split; [split |].
  - rewrite Hsize. apply initializer_size.
  - intros Hoff. rewrite Hfile, Hline, Hfun.
    apply initializer_without_source_info. exact Hoff.
  - intros _level args Hge. unfold LOG_C.
    rewrite (guard_true site _level Hge).
    unfold bind at 1. unfold _LOG_INIT_ATTR. rewrite Hinit. reflexivity.
Qed.

End Attributes.

(** ** The fatal path *)

Section Panic.

Context {W VaList : Type} {api : LogApi W VaList}.
Local Open Scope log_scope.

Lemma LOG_expansion (site : CallSite) (_level : level_token)
    (args : M W (string * VaList)) (w : W) :
  LOG site _level args w =
  (if LOG_LEVEL_ _level >=? LOG_COMPILE_TIME_LEVEL (site_config site) then
     _attr <- _LOG_INIT_ATTR site ;;
     a <- args ;;
     log_message (LOG_LEVEL_ _level) (LOG_THIS_CATEGORY site) _attr NULL
       (fst a) (snd a)
   else ret tt) w.
Proof.
  unfold LOG, LOG_C.
  destruct (LOG_LEVEL_ _level >=? LOG_COMPILE_TIME_LEVEL (site_config site));
    [| reflexivity].
  unfold bind, ret.
  destruct (_LOG_INIT_ATTR site w) as [_attr w1 | code w1]; [| reflexivity].
  destruct (args w1) as [a w2 | code w2]; reflexivity.
Qed.

(** C8, amended: [PANIC(_code, ...)], in every build.  It first runs the
    build's [LOG(PANIC, ...)]: with [LOG_DISABLE] undefined and
    [LOG_LEVEL_PANIC] at or above the compile-time floor that is a call of
    [log_message] at [LOG_LEVEL_PANIC] with the current category, and with
    [LOG_DISABLE] defined or the floor above [LOG_LEVEL_PANIC] it is
    nothing.  Then, whatever the logging did, it evaluates the code and
    calls [panic_] with it, [NULL] and [HAL_Delay_Microseconds].  Provided
    [panic_] keeps control, [PANIC] never returns, and when the steps
    before it return it halts with the caller's code. *)
Theorem PANIC_logs_then_hands_over (build : Build) (site : CallSite)
    (_code : M W Z) (args : M W (string * VaList)) :
  panic_never_returns ->
  forall w : W,
    Built.PANIC build site _code args w =
    ((if negb (def_LOG_DISABLE build)
         && (LOG_LEVEL_PANIC >=? LOG_COMPILE_TIME_LEVEL (site_config site))
      then
        _attr <- _LOG_INIT_ATTR site ;;
        a <- args ;;
        log_message LOG_LEVEL_PANIC (LOG_THIS_CATEGORY site) _attr NULL
          (fst a) (snd a)
      else ret tt) ;;
     code <- _code ;;
     panic_ code NULL HAL_Delay_Microseconds) w /\
    (forall u w', Built.PANIC build site _code args w <> Returns u w') /\
    (forall w1 code w2,
        Built.LOG build site Token.PANIC args w = Returns tt w1 ->
        _code w1 = Returns code w2 ->
        exists w3, Built.PANIC build site _code args w = Halts code w3).
Proof.
  intros Hpanic w. split; [| split].
  - unfold Built.PANIC, Built.LOG.
    destruct (def_LOG_DISABLE build); [reflexivity |].
    cbn [negb andb]. unfold bind at 1.
    rewrite (LOG_expansion site Token.PANIC args w). reflexivity.
  - unfold Built.PANIC. apply bind_never_returns. intros _ w1.
    apply bind_never_returns. intros code w2 u w3.
    destruct (Hpanic code NULL HAL_Delay_Microseconds w2) as [w4 ->].
    discriminate.
  - intros w1 code w2 Hlog Hcode. unfold Built.PANIC.
    rewrite (bind_returns _ _ _ _ _ Hlog), (bind_returns _ _ _ _ _ Hcode).
    destruct (Hpanic code NULL HAL_Delay_Microseconds w2) as [w3 ->].
    exists w3. reflexivity.
Qed.

End Panic.

(** C8, as stated, fails: with [LOG_LEVEL_NONE] as the compile-time floor
    [PANIC] calls [panic_] and nothing before it, so no PANIC-level message
    is attempted. *)
Lemma PANIC_under_floor_NONE_logs_nothing :
  Tracing.calls_of
    (PANIC (api := Tracing.api)
       (Recorder.site_in (Recorder.config_with_floor LOG_LEVEL_NONE) [])
       (ret 3) (ret ("out of heap"%string, [])))
  = [Tracing.Called_panic_ 3 NULL] /\
  existsb Tracing.is_log_message
    (Tracing.calls_of
       (PANIC (api := Tracing.api)
          (Recorder.site_in (Recorder.config_with_floor LOG_LEVEL_NONE) [])
          (ret 3) (ret ("out of heap"%string, []))))
  = false.
Proof. split; reflexivity. Qed.

(** The same in a build that defines [LOG_DISABLE], at the default floor. *)
Example PANIC_with_LOG_DISABLE_logs_nothing :
  Tracing.calls_of
    (Built.PANIC (api := Tracing.api) silent_build Recorder.default_site
       (ret 3) (ret ("out of heap"%string, [])))
  = [Tracing.Called_panic_ 3 NULL].
Proof. reflexivity. Qed.

Example PANIC_default_floor_calls :
  Tracing.calls_of
    (PANIC (api := Tracing.api) (Recorder.site_in default_config [])
       (ret 3) (ret ("out of heap"%string, [])))
  = [Tracing.Called_log_init_attr
       {| size := 24; flags := 0; file := NULL; line := 0; function := NULL;
          time := 0 |} NULL;
     Tracing.Called_log_message 60 NULL
       {| size := 24; flags := 0; file := NULL; line := 0; function := NULL;
          time := 0 |} NULL "out of heap" [];
     Tracing.Called_panic_ 3 NULL].
Proof. reflexivity. Qed.

Lemma PANIC_logs_then_hands_over_witness :
  @panic_never_returns _ _ Tracing.api /\
  forall u w',
    Built.PANIC (api := Tracing.api) release_build
      (Recorder.site_in default_config [])
      (ret 3) (ret ("out of heap"%string, [])) [] <> Returns u w'.
Proof.
  assert (H : @panic_never_returns _ _ Tracing.api).
  { intros code extra delay w. eexists. reflexivity. }
  split.
  - exact H.
  - apply (PANIC_logs_then_hands_over (api := Tracing.api) release_build
             (Recorder.site_in default_config []) (ret 3)
             (ret ("out of heap"%string, [])) H []).
Defined.

(** ** Hexadecimal text *)

Lemma unhex_hex_byte (b : byte) :
  unhex_byte (hex_digit (N.shiftr (Byte.to_N b) 4))
    (hex_digit (N.land (Byte.to_N b) 15)) = Some b.
Proof. destruct b; reflexivity. Qed.

Lemma hex_byte_lowercase (b : byte) : forallb is_lower_hex (hex_byte b) = true.
Proof. destruct b; reflexivity. Qed.

Lemma hex_encode_cons (b : byte) (data : list byte) :
  hex_encode (b :: data) = hex_byte b ++ hex_encode data.
Proof. reflexivity. Qed.

Lemma hex_encode_length (data : list byte) :
  List.length (hex_encode data) = (2 * List.length data)%nat.
Proof.
  induction data as [| b data IH]; [reflexivity |].
  rewrite hex_encode_cons, length_app, IH. cbn [List.length hex_byte]. lia.
Qed.

Lemma hex_encode_lowercase (data : list byte) :
  forallb is_lower_hex (hex_encode data) = true.
Proof.
  induction data as [| b data IH]; [reflexivity |].
  rewrite hex_encode_cons, forallb_app, hex_byte_lowercase, IH. reflexivity.
Qed.

(** Decoding undoes encoding. *)
Lemma hex_decode_encode (data : list byte) :
  hex_decode (hex_encode data) = Some data.
Proof.
  induction data as [| b data IH]; [reflexivity |].
  rewrite hex_encode_cons. unfold hex_byte. cbn [app hex_decode].
  rewrite unhex_hex_byte, IH. reflexivity.
Qed.

Lemma skipn_nth (data : list byte) :
  forall i, (i < List.length data)%nat ->
    skipn i data = nth i data x00 :: skipn (S i) data.
Proof.
  induction data as [| c data IH]; intros i Hi; cbn in Hi; [lia |].
  destruct i as [| i]; [reflexivity |].
  cbn [skipn nth]. apply IH. lia.
Qed.

(** ** The implementation after the specification *)

Section SpecFacts.

Context {B VaList : Type}.
Variable render : string -> VaList -> list byte.
Variable dump_separator : Z -> list byte.
Variable cfg : Config.

Local Abbreviation API := (SpecApi render dump_separator cfg).
Local Abbreviation World := (@World B).

Lemma spec_log_init_attr_keeps :
  @keeps_initialized_fields World VaList API.
Proof.
  intros attr reserved w attr' w' H. cbn in H. unfold spec_log_init_attr in H.
  injection H as <- _. repeat split.
Qed.

Lemma spec_panic_never_returns : @panic_never_returns World VaList API.
Proof. intros code extra delay w. exists w. reflexivity. Qed.

(** C3: the enabled check at a call site, for a category [C] and a
    program state [w].  At or above the compile-time floor with a
    predicate [P] registered it is [P]'s answer for the level, [C] and the
    reserved context, as a truth value (and the very number when [P]
    answers 0 or 1); with no predicate registered it is 1; below the floor
    it is 0 and the state is as before, so [P] was not called and the
    category expression was not evaluated. *)
Theorem enabled_check (site : CallSite) (_level : level_token) (C : cstr)
    (w : World) :
  (forall P,
      LOG_COMPILE_TIME_LEVEL (site_config site) <= LOG_LEVEL_ _level ->
      log_enabled_callback (registry w) = Some P ->
      exists r,
        LOG_ENABLED_C (api := API) site _level (ret C) w =
        Returns r
          (set_backend
             (snd (P (LOG_LEVEL_ _level) C (reserved_context (registry w))
                     (backend w))) w) /\
        c_true r =
        c_true (fst (P (LOG_LEVEL_ _level) C (reserved_context (registry w))
                       (backend w))) /\
        (c_int (c_true r) = r) /\
        (forall b : bool,
            fst (P (LOG_LEVEL_ _level) C (reserved_context (registry w))
                   (backend w)) = c_int b -> r = c_int b)) /\
  (LOG_COMPILE_TIME_LEVEL (site_config site) <= LOG_LEVEL_ _level ->
   log_enabled_callback (registry w) = None ->
   LOG_ENABLED_C (api := API) site _level (ret C) w = Returns 1 w) /\
  (LOG_LEVEL_ _level < LOG_COMPILE_TIME_LEVEL (site_config site) ->
   forall _category,
     LOG_ENABLED_C (api := API) site _level _category w = Returns 0 w).
Proof.
  split; [| split].
  - intros P Hge HP. unfold LOG_ENABLED_C.
    rewrite (guard_true site _level Hge).
    unfold bind, ret. cbn [log_enabled API SpecApi]. unfold spec_log_enabled.
    rewrite HP.
    destruct (P (LOG_LEVEL_ _level) C (reserved_context (registry w))
                (backend w)) as [r b] eqn:E.
    exists (c_int (c_true r)). cbn [fst snd].
    split; [reflexivity |]. split; [| split].
    + unfold c_int, c_true. destruct (r =? 0); reflexivity.
    + unfold c_int, c_true. destruct (r =? 0); reflexivity.
    + intros [|] ->; reflexivity.
  - intros Hge HP. unfold LOG_ENABLED_C.
    rewrite (guard_true site _level Hge).
    unfold bind, ret. cbn [log_enabled API SpecApi]. unfold spec_log_enabled.
    rewrite HP. reflexivity.
  - intros Hlt _category. unfold LOG_ENABLED_C.
    rewrite (guard_false site _level Hlt). reflexivity.
Qed.

(** *** The bounded buffer of [log_message] *)

Lemma render_bounded_length (n : nat) (text : list byte) :
  (List.length (render_bounded n text) <= n)%nat.
Proof.
  destruct n as [| k]; cbn [render_bounded]; [cbn; lia |].
  rewrite length_app. cbn [List.length].
  pose proof (firstn_le_length k text). lia.
Qed.

Lemma render_bounded_fits (n : nat) (text : list byte) :
  (0 < n)%nat -> (List.length text <= n - 1)%nat ->
  render_bounded n text = text ++ [x00].
Proof.
  intros Hn Hfit. destruct n as [| k]; [lia |]. cbn [render_bounded].
  rewrite firstn_all2 by lia. reflexivity.
Qed.

Lemma render_bounded_truncates (n : nat) (text : list byte) :
  (0 < n)%nat -> (n - 1 < List.length text)%nat ->
  render_bounded n text = firstn (n - 1) text ++ [x00] /\
  List.length (firstn (n - 1) text) = (n - 1)%nat /\
  List.length (render_bounded n text) = n.
Proof.
  intros Hn Hlong. destruct n as [| k]; [lia |]. cbn [render_bounded].
  replace (S k - 1)%nat with k in * by lia.
  assert (Hk : List.length (firstn k text) = k).
  { apply firstn_length_le. lia. }
  repeat split; [exact Hk |].
  rewrite length_app, Hk. cbn. lia.
Qed.

(** C4: with a message callback registered and a buffer of at least one
    character, [log_message] returns normally after one invocation of the
    callback on a buffer that is never longer than
    [LOG_MAX_STRING_LENGTH] (160 when the build leaves it undefined).  A
    text of at most [LOG_MAX_STRING_LENGTH - 1] characters arrives as
    rendered, followed by the terminator; a longer one arrives as its
    first [LOG_MAX_STRING_LENGTH - 1] characters followed by the
    terminator, filling the buffer. *)
Theorem log_message_bounded (level : Z) (category : cstr)
    (attr : LogAttributes) (reserved : void_ptr) (fmt : string)
    (args : VaList) (w : World) (callback : log_message_callback_type) :
  0 < LOG_MAX_STRING_LENGTH cfg ->
  log_msg_callback (registry w) = Some callback ->
  (def_LOG_MAX_STRING_LENGTH cfg = None -> max_length cfg = 160%nat) /\
  exists buf : list byte,
    log_message (LogApi := API) level category attr reserved fmt args w =
    Returns tt
      (set_backend
         (callback buf level category attr (reserved_context (registry w))
            (backend w)) w) /\
    (List.length buf <= max_length cfg)%nat /\
    ((List.length (render fmt args) <= max_length cfg - 1)%nat ->
     buf = render fmt args ++ [x00]) /\
    ((max_length cfg - 1 < List.length (render fmt args))%nat ->
     buf = firstn (max_length cfg - 1) (render fmt args) ++ [x00] /\
     List.length (firstn (max_length cfg - 1) (render fmt args))
       = (max_length cfg - 1)%nat /\
     List.length buf = max_length cfg).
Proof.
  intros Hpos Hcb.
  assert (Hn : (0 < max_length cfg)%nat) by (unfold max_length; lia).
  split.
  { intros Hundef. unfold max_length, LOG_MAX_STRING_LENGTH.
    rewrite Hundef. reflexivity. }
  exists (render_bounded (max_length cfg) (render fmt args)).
  split.
  { cbn [log_message API SpecApi]. unfold spec_log_message.
    rewrite Hcb. reflexivity. }
  split; [apply render_bounded_length |].
  split.
  - intros Hfit. apply render_bounded_fits; assumption.
  - intros Hlong. apply render_bounded_truncates; assumption.
Qed.

(** *** The hex dump *)

Section Dump.

Variable emit : list byte -> B -> B.
Variable data : list byte.

Lemma dump_unit_default (b : byte) : dump_unit dump_separator 0 b = hex_byte b.
Proof. unfold dump_unit. cbn [Z.eqb]. apply app_nil_r. Qed.

(** The loop hands [emit] non-empty pieces of the text, in order. *)
Lemma dump_loop_chunks :
  forall (n i : nat) (buf : list byte) (b : B),
    (i + n <= List.length data)%nat ->
    exists chunks : list (list byte),
      dump_loop dump_separator cfg emit 0 data i n buf b =
      fold_left (fun acc chunk => emit chunk acc) chunks b /\
      List.concat chunks = buf ++ hex_encode (firstn n (skipn i data)) /\
      Forall (fun chunk => chunk <> []) chunks /\
      ((List.length buf + 2 <= max_length cfg)%nat ->
       Forall (fun chunk => (List.length chunk <= max_length cfg)%nat) chunks).
Proof.
  induction n as [| n IH]; intros i buf b Hin.
  - cbn [dump_loop firstn hex_encode flat_map]. rewrite app_nil_r.
    destruct buf as [| c buf].
    + exists []. repeat split; constructor.
    + exists [c :: buf]. cbn [fold_left List.concat]. rewrite app_nil_r.
      split; [reflexivity |]. split; [reflexivity |].
      split; [constructor; [discriminate | constructor] |].
      intros Hroom. constructor; [lia | constructor].
  - cbn [dump_loop]. rewrite dump_unit_default.
    rewrite (skipn_nth data i) by lia. cbn [firstn].
    rewrite hex_encode_cons.
    set (buf' := buf ++ hex_byte (nth i data x00)).
    assert (Hlen : List.length buf' = (List.length buf + 2)%nat).
    { unfold buf'. rewrite length_app. reflexivity. }
    assert (Hunit : dump_unit_length dump_separator 0 = 2%nat) by reflexivity.
    rewrite Hunit.
    destruct (max_length cfg <? List.length buf' + 2)%nat eqn:Hfull.
    + destruct (IH (S i) [] (emit buf' b)) as (chunks & Hrun & Hcat & Hne & Hle);
        [lia |].
      exists (buf' :: chunks). cbn [fold_left List.concat].
      split; [exact Hrun |]. split.
      { rewrite Hcat. unfold buf'. cbn [app]. now rewrite <- app_assoc. }
      split.
      { constructor; [| exact Hne]. intros Hnil.
        rewrite Hnil in Hlen. cbn in Hlen. lia. }
      intros Hroom. constructor; [lia |]. apply Hle. cbn. lia.
    + apply Nat.ltb_ge in Hfull.
      destruct (IH (S i) buf' b) as (chunks & Hrun & Hcat & Hne & Hle); [lia |].
      exists chunks.
      split; [exact Hrun |]. split.
      { rewrite Hcat. unfold buf'. now rewrite <- app_assoc. }
      split; [exact Hne |].
      intros _. apply Hle. lia.
Qed.

(** The loop reads the bytes at [i], ..., [i + n - 1] and no other. *)
Lemma dump_loop_reads_within (data' : list byte) (flags : Z) :
  forall (n i : nat) (buf : list byte) (b : B),
    (forall j, (i <= j < i + n)%nat -> nth j data x00 = nth j data' x00) ->
    dump_loop dump_separator cfg emit flags data i n buf b =
    dump_loop dump_separator cfg emit flags data' i n buf b.
Proof.
  induction n as [| n IH]; intros i buf b Hsame; [reflexivity |].
  cbn [dump_loop]. rewrite (Hsame i) by lia.
  destruct (max_length cfg
            <? List.length (buf ++ dump_unit dump_separator flags (nth i data' x00))
               + dump_unit_length dump_separator flags)%nat;
    apply IH; intros j Hj; apply Hsame; lia.
Qed.

End Dump.

Lemma set_backend_same (w : World) : set_backend (backend w) w = w.
Proof. destruct w. reflexivity. Qed.

Lemma concat_nonempty_nil (chunks : list (list byte)) :
  Forall (fun chunk => chunk <> []) chunks ->
  List.concat chunks = [] -> chunks = [].
Proof.
  intros Hne Hcat. destruct chunks as [| c chunks]; [reflexivity |].
  inversion Hne as [| ? ? Hc _]; subst. cbn in Hcat.
  apply app_eq_nil in Hcat. destruct Hcat as [Hnil _]. contradiction.
Qed.

Lemma firstn_own_length (data extra : list byte) :
  firstn (List.length data) (data ++ extra) = data.
Proof.
  rewrite firstn_app, Nat.sub_diag, firstn_all. cbn [firstn].
  apply app_nil_r.
Qed.

(** C5: [log_dump] with flags 0 and a write callback registered, on a
    buffer of declared size [List.length data] followed in memory by
    [extra].  The text is two lowercase hexadecimal characters per byte
    with nothing between them, and decoding it gives [data] back; the
    bytes 00 ff 1a give "00ff1a".  The write callback receives the text in
    order, in non-empty pieces that fit the buffer, and is not called at
    all for an empty buffer or a zero size; what lies behind the declared
    size has no influence. *)
Theorem log_dump_hex (level : Z) (category : cstr) (data extra : list byte)
    (reserved : void_ptr) (w : World) (callback : log_write_callback_type) :
  log_write_callback (registry w) = Some callback ->
  (List.length (hex_encode data) = (2 * List.length data)%nat /\
   forallb is_lower_hex (hex_encode data) = true /\
   hex_decode (hex_encode data) = Some data /\
   hex_encode [x00; xff; x1a] = list_byte_of_string "00ff1a") /\
  (exists chunks : list (list byte),
      log_dump (LogApi := API) level category (data ++ extra)
        (List.length data) 0 reserved w =
      Returns tt
        (set_backend
           (fold_left
              (fun acc chunk =>
                 callback chunk (List.length chunk) level category
                   (reserved_context (registry w)) acc)
              chunks (backend w)) w) /\
      List.concat chunks = hex_encode data /\
      hex_decode (List.concat chunks) = Some data /\
      Forall (fun chunk => chunk <> []) chunks /\
      (2 <= LOG_MAX_STRING_LENGTH cfg ->
       Forall (fun chunk => (List.length chunk <= max_length cfg)%nat) chunks) /\
      (data = [] -> chunks = [])) /\
  (forall flags extra',
      log_dump (LogApi := API) level category (data ++ extra')
        (List.length data) flags reserved w =
      log_dump (LogApi := API) level category (data ++ extra)
        (List.length data) flags reserved w) /\
  (forall flags,
      log_dump (LogApi := API) level category (data ++ extra) 0 flags
        reserved w = Returns tt w).
Proof.
  intros Hcb. split; [| split; [| split]].
  - split; [apply hex_encode_length |].
    split; [apply hex_encode_lowercase |].
    split; [apply hex_decode_encode | reflexivity].
  - set (emit := fun (chunk : list byte) (acc : B) =>
                   callback chunk (List.length chunk) level category
                     (reserved_context (registry w)) acc).
    destruct (dump_loop_chunks emit (data ++ extra) (List.length data) 0 []
                (backend w)) as (chunks & Hrun & Hcat & Hne & Hle).
    { rewrite length_app. lia. }
    cbn [skipn app] in Hcat. rewrite firstn_own_length in Hcat.
    exists chunks. split.
    { cbn [log_dump API SpecApi]. unfold spec_log_dump.
      rewrite Hcb. fold emit. rewrite Hrun. reflexivity. }
    split; [exact Hcat |].
    split; [rewrite Hcat; apply hex_decode_encode |].
    split; [exact Hne |]. split.
    + intros Hmax. apply Hle. unfold max_length. cbn [List.length]. lia.
    + intros ->. apply concat_nonempty_nil; assumption.
  - intros flags extra'. cbn [log_dump API SpecApi]. unfold spec_log_dump.
    rewrite Hcb. do 2 f_equal.
    apply dump_loop_reads_within. intros j Hj.
    rewrite !app_nth1 by lia. reflexivity.
  - intros flags. cbn [log_dump API SpecApi]. unfold spec_log_dump.
    rewrite Hcb. cbn [dump_loop]. rewrite set_backend_same. reflexivity.
Qed.

(** *** Unset callbacks *)

Lemma log_message_unset (w : World) :
  log_msg_callback (registry w) = None ->
  forall level category attr reserved fmt args,
    log_message (LogApi := API) level category attr reserved fmt args w
    = Returns tt w.
Proof.
  intros Hnone level category attr reserved fmt args.
  cbn [log_message API SpecApi]. unfold spec_log_message.
  rewrite Hnone. reflexivity.
Qed.

Lemma write_path_unset (w : World) :
  log_write_callback (registry w) = None ->
  forall level category reserved,
    (forall data size,
        log_write (LogApi := API) level category data size reserved w
        = Returns tt w) /\
    (forall fmt args,
        log_printf (LogApi := API) level category reserved fmt args w
        = Returns tt w) /\
    (forall data size flags,
        log_dump (LogApi := API) level category data size flags reserved w
        = Returns tt w).
Proof.
  intros Hnone level category reserved.
  cbn [log_write log_printf log_dump API SpecApi].
  unfold spec_log_write, spec_log_printf, spec_log_dump.
  rewrite Hnone. repeat split.
Qed.

Lemma log_init_attr_pure (attr : LogAttributes) (reserved : void_ptr)
    (w : World) :
  exists attr',
    log_init_attr (LogApi := API) attr reserved w = Returns attr' w.
Proof. eexists. reflexivity. Qed.

(** C7: an emission whose callback is unset returns with the program
    state as it was: [log_message] without a message callback, whatever
    write callback is registered (also right after [log_set_callbacks]
    registered one), and [log_write], [log_printf] and [log_dump] without
    a write callback; with neither registered every emission macro, at any
    level and floor, returns with the state as it was. *)
Theorem unset_callbacks_do_nothing (w : World) :
  (log_msg_callback (registry w) = None ->
   forall level category attr reserved fmt args,
     log_message (LogApi := API) level category attr reserved fmt args w
     = Returns tt w) /\
  (forall log_write log_enabled context w1,
      spec_log_set_callbacks None log_write log_enabled context w
        = Returns tt w1 ->
      backend w1 = backend w /\
      forall level category attr reserved fmt args,
        log_message (LogApi := API) level category attr reserved fmt args w1
        = Returns tt w1) /\
  (log_write_callback (registry w) = None ->
   forall level category reserved,
     (forall data size,
         log_write (LogApi := API) level category data size reserved w
         = Returns tt w) /\
     (forall fmt args,
         log_printf (LogApi := API) level category reserved fmt args w
         = Returns tt w) /\
     (forall data size flags,
         log_dump (LogApi := API) level category data size flags reserved w
         = Returns tt w)) /\
  (log_msg_callback (registry w) = None ->
   log_write_callback (registry w) = None ->
   forall site _level _category,
     (forall _fmt va,
         LOG_C (api := API) site _level (ret (_category, _fmt, va)) w
         = Returns tt w) /\
     (forall _data _size,
         LOG_WRITE_C (api := API) site _level (ret (_category, _data, _size)) w
         = Returns tt w) /\
     (forall _str,
         LOG_PRINT_C (api := API) site _level (ret _category) (ret _str) w
         = Returns tt w) /\
     (forall _fmt va,
         LOG_PRINTF_C (api := API) site _level (ret (_category, _fmt, va)) w
         = Returns tt w) /\
     (forall _data _size,
         LOG_DUMP_C (api := API) site _level (ret (_category, _data, _size)) w
         = Returns tt w)).
Proof.
  split; [apply log_message_unset |].
  split.
  { intros lw le context w1 Hset. unfold spec_log_set_callbacks in Hset.
    injection Hset as <-. split; [reflexivity |].
    apply log_message_unset. reflexivity. }
  split; [apply write_path_unset |].
  intros Hmsg Hwrite site _level _category.
  pose proof (write_path_unset w Hwrite) as Hw.
  unfold LOG_C, LOG_WRITE_C, LOG_PRINT_C, LOG_PRINTF_C, LOG_DUMP_C.
  destruct (LOG_LEVEL_ _level >=? LOG_COMPILE_TIME_LEVEL (site_config site));
    [| repeat split].
  split; [| split; [| split; [| split]]].
  - intros _fmt va. unfold _LOG_INIT_ATTR.
    destruct (log_init_attr_pure (_LOG_ATTR_INITIALIZER site) NULL w)
      as [attr' Hattr].
    unfold bind at 1. rewrite Hattr. rewrite bind_ret.
    apply log_message_unset. exact Hmsg.
  - intros _data _size. rewrite bind_ret. apply Hw.
  - intros _str. rewrite !bind_ret. apply Hw.
  - intros _fmt va. rewrite bind_ret. apply Hw.
  - intros _data _size. rewrite bind_ret. apply Hw.
Qed.

End SpecFacts.

(** ** The recording backend at work *)

(** Floor INFO: a TRACE call reaches no callback; a WARN call with
    category "net.tcp" reaches the message callback with level 40, that
    category and the text as rendered. *)
Example floor_INFO_scenario :
  LOG_C (api := Recorder.api (Recorder.config_with_floor LOG_LEVEL_INFO))
    Recorder.info_site Token.TRACE
    (ret (Some "net.tcp"%string, "link up"%string, [])) Recorder.ready
  = Returns tt Recorder.ready /\
  LOG_C (api := Recorder.api (Recorder.config_with_floor LOG_LEVEL_INFO))
    Recorder.info_site Token.WARN
    (ret (Some "net.tcp"%string, "link up"%string, [])) Recorder.ready
  = Returns tt
      (set_backend
         [Recorder.Message (list_byte_of_string "link up" ++ [x00]) 40
            (Some "net.tcp"%string) Recorder.captured (Some 7)]
         Recorder.ready).
Proof. split; reflexivity. Qed.

Example dump_scenario :
  log_dump (LogApi := Recorder.api default_config) 1 NULL
    [x00; xff; x1a; x41] 3 0 NULL Recorder.ready
  = Returns tt
      (set_backend
         [Recorder.Written (list_byte_of_string "00ff1a") 6 1 NULL (Some 7)]
         Recorder.ready).
Proof. reflexivity. Qed.

Example enabled_scenario :
  LOG_ENABLED (api := Recorder.api default_config) Recorder.default_site
    Token.INFO Recorder.ready
  = Returns 1 (set_backend [Recorder.Asked 30 NULL (Some 7)] Recorder.ready) /\
  LOG_ENABLED (api := Recorder.api default_config) Recorder.default_site
    Token.INFO Recorder.bare
  = Returns 1 Recorder.bare /\
  LOG_ENABLED (api := Recorder.api (Recorder.config_with_floor LOG_LEVEL_INFO))
    Recorder.info_site Token.TRACE Recorder.ready
  = Returns 0 Recorder.ready.
Proof. repeat split. Qed.

Lemma attributes_built_for_dispatch_witness :
  @keeps_initialized_fields _ _ (Recorder.api default_config) /\
  _LOG_INIT_ATTR (api := Recorder.api default_config) Recorder.default_site
    Recorder.ready = Returns Recorder.captured Recorder.ready /\
  size Recorder.captured = sizeof_LogAttributes default_config /\
  (def_LOG_INCLUDE_SOURCE_INFO default_config = false ->
   file Recorder.captured = NULL /\ line Recorder.captured = 0 /\
   function Recorder.captured = NULL).
Proof.
  split; [apply spec_log_init_attr_keeps |].
  split; [reflexivity |].
  apply (attributes_built_for_dispatch (api := Recorder.api default_config)
           Recorder.default_site
           (spec_log_init_attr_keeps Recorder.literal Recorder.no_separator
              default_config)
           Recorder.ready Recorder.captured Recorder.ready eq_refl).
Defined.

Lemma log_message_bounded_witness :
  0 < LOG_MAX_STRING_LENGTH default_config /\
  log_msg_callback (registry Recorder.ready) = Some Recorder.on_message /\
  exists buf : list byte,
    log_message (LogApi := Recorder.api default_config) 40
      (Some "net.tcp"%string) Recorder.captured NULL "link up" []
      Recorder.ready
    = Returns tt
        (set_backend
           (Recorder.on_message buf 40 (Some "net.tcp"%string)
              Recorder.captured (Some 7) [])
           Recorder.ready) /\
    (List.length buf <= 160)%nat.
Proof.
  split; [reflexivity |]. split; [reflexivity |].
  destruct (log_message_bounded Recorder.literal Recorder.no_separator
              default_config 40 (Some "net.tcp"%string) Recorder.captured
              NULL "link up" [] Recorder.ready Recorder.on_message
              eq_refl eq_refl)
    as [_ (buf & Hrun & Hlen & _)].
  exists buf. split; [exact Hrun | exact Hlen].
Defined.

Lemma log_dump_hex_witness :
  log_write_callback (registry Recorder.ready) = Some Recorder.on_write /\
  hex_decode (hex_encode [x00; xff; x1a]) = Some [x00; xff; x1a].
Proof.
  split; [reflexivity |].
  apply (log_dump_hex Recorder.literal Recorder.no_separator default_config
           1 NULL [x00; xff; x1a] [x41] NULL Recorder.ready
           Recorder.on_write eq_refl).
Defined.

(** ** Further properties of the macros *)

Section MoreMacros.

Context {W VaList : Type} {api : LogApi W VaList}.
Local Open Scope log_scope.

(** X1: with [LOG_INCLUDE_SOURCE_INFO] defined, and [log_init_attr]
    keeping the fields the initializer filled in, the record
    [_LOG_INIT_ATTR] builds names the file, line and function of the call
    site. *)
Theorem source_info_captured (site : CallSite) :
  keeps_initialized_fields ->
  def_LOG_INCLUDE_SOURCE_INFO (site_config site) = true ->
  forall (w : W) (_attr : LogAttributes) (w' : W),
    _LOG_INIT_ATTR site w = Returns _attr w' ->
    size _attr = sizeof_LogAttributes (site_config site) /\
    file _attr = Some (__FILE__ site) /\
    line _attr = __LINE__ site /\
    function _attr = Some (__PRETTY_FUNCTION__ site).
Proof.
  intros Hkeep Hon w _attr w' Hinit. unfold _LOG_INIT_ATTR in Hinit.
  destruct (Hkeep _ _ _ _ _ Hinit) as (Hsize & Hfile & Hline & Hfun).
  rewrite Hsize, Hfile, Hline, Hfun.
  split; [apply initializer_size |].
  apply initializer_with_source_info. exact Hon.
Qed.

Lemma strlen_le (s : list byte) : (strlen s <= List.length s)%nat.
Proof.
  induction s as [| c s IH]; cbn; [lia |].
  destruct (Byte.eqb c x00); lia.
Qed.

Lemma strlen_no_terminator (s : list byte) :
  Forall (fun c => c <> x00) (firstn (strlen s) s).
Proof.
  induction s as [| c s IH]; cbn; [constructor |].
  destruct (Byte.eqb c x00) eqn:E; cbn; [constructor |].
  constructor; [| exact IH].
  intros ->. discriminate E.
Qed.

Lemma strlen_terminator (s : list byte) : nth (strlen s) s x00 = x00.
Proof.
  induction s as [| c s IH]; cbn; [reflexivity |].
  destruct (Byte.eqb c x00) eqn:E; [| exact IH].
  apply Byte.byte_dec_bl in E. exact E.
Qed.

(** X2: [LOG_PRINT(level, str)] is [LOG_WRITE(level, str, strlen(str))],
    where [strlen(str)] counts the characters before the first
    terminator, so the terminator is not written. *)
Theorem LOG_PRINT_is_LOG_WRITE_strlen (site : CallSite)
    (_level : level_token) (_str : list byte) (w : W) :
  LOG_PRINT site _level (ret _str) w =
  LOG_WRITE site _level (ret (_str, strlen _str)) w /\
  (strlen _str <= List.length _str)%nat /\
  Forall (fun c => c <> x00) (firstn (strlen _str) _str) /\
  nth (strlen _str) _str x00 = x00.
Proof.
  split.
  - unfold LOG_PRINT, LOG_WRITE, LOG_PRINT_C, LOG_WRITE_C.
    destruct (LOG_LEVEL_ _level >=? LOG_COMPILE_TIME_LEVEL (site_config site));
      reflexivity.
  - split; [apply strlen_le |].
    split; [apply strlen_no_terminator | apply strlen_terminator].
Qed.

(** X3: with [LOG_LEVEL_NONE] as the compile-time floor, every wrapper
    macro at a level other than NONE does nothing and the enabled check
    is 0. *)
Theorem floor_NONE_disables_output (site : CallSite) (_level : level_token) :
  LOG_COMPILE_TIME_LEVEL (site_config site) = LOG_LEVEL_NONE ->
  _level <> Token.NONE ->
  forall w : W,
    (forall args, LOG_C site _level args w = Returns tt w) /\
    (forall args, LOG_WRITE_C site _level args w = Returns tt w) /\
    (forall _category _str,
        LOG_PRINT_C site _level _category _str w = Returns tt w) /\
    (forall args, LOG_PRINTF_C site _level args w = Returns tt w) /\
    (forall args, LOG_DUMP_C site _level args w = Returns tt w) /\
    (forall _category, LOG_ENABLED_C site _level _category w = Returns 0 w).
Proof.
  intros Hfloor Hlevel w.
  assert (Hguard :
    (LOG_LEVEL_ _level >=? LOG_COMPILE_TIME_LEVEL (site_config site)) = false).
  { apply guard_false. rewrite Hfloor.
    destruct _level; try (vm_compute; reflexivity). contradiction. }
  unfold LOG_C, LOG_WRITE_C, LOG_PRINT_C, LOG_PRINTF_C, LOG_DUMP_C,
    LOG_ENABLED_C.
  rewrite Hguard. repeat split.
Qed.

End MoreMacros.

Lemma source_info_captured_witness :
  @keeps_initialized_fields _ _ (Recorder.api Recorder.debug_config) /\
  def_LOG_INCLUDE_SOURCE_INFO
    (site_config (Recorder.site_in Recorder.debug_config [])) = true /\
  file {| size := 24; flags := 0; file := Some "main.c"%string; line := 42;
          function := Some "main"%string; time := 1234 |}
  = Some (__FILE__ (Recorder.site_in Recorder.debug_config [])).
Proof.
  split; [apply spec_log_init_attr_keeps |].
  split; [reflexivity |].
  apply (source_info_captured (api := Recorder.api Recorder.debug_config)
           (Recorder.site_in Recorder.debug_config [])
           (spec_log_init_attr_keeps Recorder.literal Recorder.no_separator
              Recorder.debug_config)
           eq_refl Recorder.ready _ Recorder.ready eq_refl).
Defined.

Lemma floor_NONE_disables_output_witness :
  LOG_COMPILE_TIME_LEVEL
    (site_config (Recorder.site_in (Recorder.config_with_floor LOG_LEVEL_NONE) []))
  = LOG_LEVEL_NONE /\
  Token.PANIC <> Token.NONE /\
  forall args,
    LOG_C (api := Tracing.api)
      (Recorder.site_in (Recorder.config_with_floor LOG_LEVEL_NONE) [])
      Token.PANIC args [] = Returns tt [].
Proof.
  split; [reflexivity |].
  split; [discriminate |].
  apply (floor_NONE_disables_output (api := Tracing.api)
           (Recorder.site_in (Recorder.config_with_floor LOG_LEVEL_NONE) [])
           Token.PANIC eq_refl).
  discriminate.
Defined.

(** ** The two branches of the category resolver *)

Section Branches.

Import Category.

Variable tu : TranslationUnit.



Lemma resolve_repeat_sites (m : nat) (st : scopes) :
  resolve tu st (repeat Site m) =
  Some (repeat (Category.LOG_THIS_CATEGORY tu (visible_log_category st)) m, st).
Proof.
  induction m as [| m IH]; cbn [repeat resolve]; [reflexivity |].
  rewrite IH. reflexivity.
Qed.

End Branches.


(** X5: where the innermost scoped category in effect was declared as
    [LOG_CATEGORY(NULL)], the C++ branch resolves to null while the C
    branch goes on to the source-file or module category; the two
    branches give the same category there exactly when that category is
    null as well. *)
Theorem null_scoped_category_splits_branches (tu : Category.TranslationUnit)
    (k : nat) (outer : Category.scopes) :
  CategoryCpp.LOG_THIS_CATEGORY tu (repeat None k ++ Some NULL :: outer)
  = NULL /\
  Category.LOG_THIS_CATEGORY tu
    (Category.visible_log_category (repeat None k ++ Some NULL :: outer))
  = CategoryCpp._LogGlobalCategory_name tu /\
  (Category.LOG_THIS_CATEGORY tu
     (Category.visible_log_category (repeat None k ++ Some NULL :: outer))
   = CategoryCpp.LOG_THIS_CATEGORY tu (repeat None k ++ Some NULL :: outer)
   <-> CategoryCpp._LogGlobalCategory_name tu = NULL).
Proof.
  assert (Hcpp :
    CategoryCpp.LOG_THIS_CATEGORY tu (repeat None k ++ Some NULL :: outer)
    = NULL).
  { induction k as [| k IH]; [reflexivity | exact IH]. }
  assert (Hc :
    Category.LOG_THIS_CATEGORY tu
      (Category.visible_log_category (repeat None k ++ Some NULL :: outer))
    = CategoryCpp._LogGlobalCategory_name tu).
  { rewrite visible_undeclared.
    - reflexivity.
    - clear Hcpp. induction k as [| k IH]; constructor; [reflexivity | exact IH]. }
  split; [exact Hcpp |]. split; [exact Hc |].
  rewrite Hc, Hcpp. tauto.
Qed.

(** X6: a [LOG_CATEGORY] takes effect from its declaration on.  In a
    block that declares a non-null category after [k] call sites and
    before [m] more, the first [k] sites resolve as they would without the
    declaration, through the enclosing scopes, and the last [m] resolve to
    the declared category. *)
Theorem LOG_CATEGORY_takes_effect_from_declaration
    (tu : Category.TranslationUnit) (outer : Category.scopes)
    (_name : string) (k m : nat) :
  Category.resolve tu (None :: outer)
    (repeat Category.Site k
     ++ Category.LOG_CATEGORY (Some _name) :: repeat Category.Site m)
  = Some (repeat (Category.LOG_THIS_CATEGORY tu
                    (Category.visible_log_category outer)) k
          ++ repeat (Some _name) m,
          Some (Some _name) :: outer).
Proof.
  rewrite resolve_app, resolve_repeat_sites.
  cbn [Category.resolve Category.declare Category.visible_log_category].
  rewrite resolve_repeat_sites. reflexivity.
Qed.

(** ** The floor as a threshold *)

(** X7: the compile-time floor cuts the scale in two.  A call site that
    is kept stays kept at every level at least as high; ALL and TRACE are
    kept or stripped together; every level is kept exactly when the floor
    is at most [LOG_LEVEL_ALL] (so also for a floor of [DEFAULT_LEVEL]),
    and every level, NONE included, is stripped exactly when the floor is
    above [LOG_LEVEL_NONE]. *)
Theorem floor_is_a_threshold (cfg : Config) :
  (forall t1 t2,
      LOG_LEVEL_ t1 <= LOG_LEVEL_ t2 ->
      passes_floor cfg t1 = true -> passes_floor cfg t2 = true) /\
  passes_floor cfg Token.ALL = passes_floor cfg Token.TRACE /\
  ((forall t, passes_floor cfg t = true)
   <-> LOG_COMPILE_TIME_LEVEL cfg <= LOG_LEVEL_ALL) /\
  ((forall t, passes_floor cfg t = false)
   <-> LOG_LEVEL_NONE < LOG_COMPILE_TIME_LEVEL cfg) /\
  (LOG_COMPILE_TIME_LEVEL cfg = DEFAULT_LEVEL ->
   forall t, passes_floor cfg t = true).
Proof.
  split.
  { intros t1 t2 Hle H1. apply passes_floor_iff in H1.
    apply passes_floor_iff. lia. }
  split; [reflexivity |].
  split.
  { split.
    - intros H. specialize (H Token.ALL). apply passes_floor_iff in H. exact H.
    - intros H t. apply passes_floor_iff.
      pose proof (LOG_LEVEL_positive t). unfold LOG_LEVEL_ALL in H. lia. }
  split.
  { split.
    - intros H. specialize (H Token.NONE). apply below_floor_iff in H. exact H.
    - intros H t. apply below_floor_iff.
      pose proof (LOG_LEVEL_positive t). unfold LOG_LEVEL_NONE in H. lia. }
  intros H t. apply passes_floor_iff. rewrite H.
  pose proof (LOG_LEVEL_positive t). unfold DEFAULT_LEVEL. lia.
Qed.

(** ** Builds *)

Section BuildFacts.

Context {W VaList : Type} {api : LogApi W VaList}.
Local Open Scope log_scope.

(** X8: a debugging counterpart ([LOG_DEBUG], [LOG_DEBUG_C], ...) does
    nothing, whatever its arguments would do when evaluated, as soon as
    one of these holds: [DEBUG_BUILD] is undefined, [LOG_DISABLE] is
    defined, or the level is below the compile-time floor. *)
Theorem debug_counterparts_stripped (build : Build) (site : CallSite)
    (_level : level_token) :
  def_DEBUG_BUILD build = false \/ def_LOG_DISABLE build = true \/
  LOG_LEVEL_ _level < LOG_COMPILE_TIME_LEVEL (site_config site) ->
  forall w : W,
    (forall args, Built.LOG_DEBUG build site _level args w = Returns tt w) /\
    (forall args, Built.LOG_DEBUG_C build site _level args w = Returns tt w) /\
    (forall args,
        Built.LOG_DEBUG_WRITE build site _level args w = Returns tt w) /\
    (forall args,
        Built.LOG_DEBUG_WRITE_C build site _level args w = Returns tt w) /\
    (forall _str,
        Built.LOG_DEBUG_PRINT build site _level _str w = Returns tt w) /\
    (forall _category _str,
        Built.LOG_DEBUG_PRINT_C build site _level _category _str w
        = Returns tt w) /\
    (forall args,
        Built.LOG_DEBUG_PRINTF build site _level args w = Returns tt w) /\
    (forall args,
        Built.LOG_DEBUG_PRINTF_C build site _level args w = Returns tt w) /\
    (forall args,
        Built.LOG_DEBUG_DUMP build site _level args w = Returns tt w) /\
    (forall args,
        Built.LOG_DEBUG_DUMP_C build site _level args w = Returns tt w).
Proof.
  intros H w.
  unfold Built.LOG_DEBUG, Built.LOG_DEBUG_C, Built.LOG_DEBUG_WRITE,
    Built.LOG_DEBUG_WRITE_C, Built.LOG_DEBUG_PRINT, Built.LOG_DEBUG_PRINT_C,
    Built.LOG_DEBUG_PRINTF, Built.LOG_DEBUG_PRINTF_C, Built.LOG_DEBUG_DUMP,
    Built.LOG_DEBUG_DUMP_C.
  destruct (def_DEBUG_BUILD build); [| repeat split].
  unfold Built.LOG, Built.LOG_C, Built.LOG_WRITE, Built.LOG_WRITE_C,
    Built.LOG_PRINT, Built.LOG_PRINT_C, Built.LOG_PRINTF, Built.LOG_PRINTF_C,
    Built.LOG_DUMP, Built.LOG_DUMP_C.
  destruct (def_LOG_DISABLE build); [repeat split |].
  destruct H as [H | [H | H]]; try discriminate H.
  apply guard_false in H.
  unfold LOG, LOG_WRITE, LOG_PRINT, LOG_PRINTF, LOG_DUMP,
    LOG_C, LOG_WRITE_C, LOG_PRINT_C, LOG_PRINTF_C, LOG_DUMP_C.
  rewrite H. repeat split.
Qed.

(** X10: [PANIC] never returns in any build, provided [panic_] keeps
    control; with [LOG_DISABLE] defined it evaluates the code and calls
    [panic_] and does nothing else: the format arguments are not
    evaluated and no logging function is called. *)
Theorem PANIC_in_every_build (build : Build) (site : CallSite)
    (_code : M W Z) (args : M W (string * VaList)) :
  panic_never_returns ->
  forall w : W,
    (forall u w', Built.PANIC build site _code args w <> Returns u w') /\
    (def_LOG_DISABLE build = true ->
     Built.PANIC build site _code args w =
     (code <- _code ;; panic_ code NULL HAL_Delay_Microseconds) w) /\
    (def_LOG_DISABLE build = false ->
     Built.PANIC build site _code args w = PANIC site _code args w).
Proof.
  intros Hpanic w. split; [| split].
  - unfold Built.PANIC. apply bind_never_returns. intros _ w1.
    apply bind_never_returns. intros code w2 u w3.
    destruct (Hpanic code NULL HAL_Delay_Microseconds w2) as [w4 ->].
    discriminate.
  - intros Hoff. unfold Built.PANIC, Built.LOG. rewrite Hoff.
    reflexivity.
  - intros Hon. unfold Built.PANIC, Built.LOG, PANIC. rewrite Hon.
    reflexivity.
Qed.

(** X11: an enabled check that returns yields 0 or 1, whatever number the
    function behind it answers, and yields 1 only in a build with logging
    and at a level that passes the compile-time floor. *)
Theorem LOG_ENABLED_C_is_boolean (build : Build) (site : CallSite)
    (_level : level_token) (_category : M W cstr) (w : W) (r : Z) (w' : W) :
  Built.LOG_ENABLED_C build site _level _category w = Returns r w' ->
  (r = 0 \/ r = 1) /\
  (r = 1 ->
   def_LOG_DISABLE build = false /\
   LOG_COMPILE_TIME_LEVEL (site_config site) <= LOG_LEVEL_ _level).
Proof.
  unfold Built.LOG_ENABLED_C, LOG_ENABLED_C.
  destruct (def_LOG_DISABLE build).
  { intros H. injection H as <- _. split; [left; reflexivity | discriminate]. }
  destruct (LOG_LEVEL_ _level >=? LOG_COMPILE_TIME_LEVEL (site_config site))
    eqn:Hguard.
  - apply Z.geb_le in Hguard. unfold bind, ret.
    destruct (_category w) as [c w1 | code w1]; [| discriminate].
    destruct (log_enabled (LOG_LEVEL_ _level) c NULL w1) as [r0 w2 | code w2];
      [| discriminate].
    intros H. injection H as <- _. split.
    + unfold c_int. destruct (c_true r0); [right | left]; reflexivity.
    + intros _. split; [reflexivity | exact Hguard].
  - intros H. injection H as <- _. split; [left; reflexivity | discriminate].
Qed.

End BuildFacts.

(** X9: the calls a [LOG_DEBUG_C] with side-effect free arguments makes.
    With [DEBUG_BUILD] defined, [LOG_DISABLE] undefined and a level that
    passes the floor they are [log_init_attr] on the freshly initialized
    record and then [log_message] with the level, the category, that
    record and the format and arguments; otherwise there is none. *)
Theorem debug_message_calls (build : Build) (site : CallSite)
    (_level : level_token) (_category : cstr) (_fmt : string)
    (va : list Z) :
  Tracing.calls_of
    (Built.LOG_DEBUG_C (api := Tracing.api) build site _level
       (ret (_category, _fmt, va)))
  = if def_DEBUG_BUILD build && negb (def_LOG_DISABLE build)
       && passes_floor (site_config site) _level
    then [Tracing.Called_log_init_attr (_LOG_ATTR_INITIALIZER site) NULL;
          Tracing.Called_log_message (LOG_LEVEL_ _level) _category
            (_LOG_ATTR_INITIALIZER site) NULL _fmt va]
    else [].
Proof.
  unfold Built.LOG_DEBUG_C, Built.LOG_C, LOG_C, passes_floor.
  destruct (def_DEBUG_BUILD build); [| reflexivity].
  destruct (def_LOG_DISABLE build); [reflexivity |].
  destruct (LOG_LEVEL_ _level >=? LOG_COMPILE_TIME_LEVEL (site_config site));
    reflexivity.
Qed.

Lemma debug_counterparts_stripped_witness :
  (def_DEBUG_BUILD release_build = false \/
   def_LOG_DISABLE release_build = true \/
   LOG_LEVEL_ Token.ERROR
     < LOG_COMPILE_TIME_LEVEL (site_config Recorder.default_site)) /\
  forall args,
    Built.LOG_DEBUG_C (api := Tracing.api) release_build
      Recorder.default_site Token.ERROR args [] = Returns tt [].
Proof.
  assert (H : def_DEBUG_BUILD release_build = false \/
              def_LOG_DISABLE release_build = true \/
              LOG_LEVEL_ Token.ERROR
                < LOG_COMPILE_TIME_LEVEL (site_config Recorder.default_site)).
  { left. reflexivity. }
  split; [exact H |].
  apply (debug_counterparts_stripped (api := Tracing.api) release_build
           Recorder.default_site Token.ERROR H []).
Defined.

Lemma PANIC_in_every_build_witness :
  @panic_never_returns _ _ Tracing.api /\
  forall u w',
    Built.PANIC (api := Tracing.api) silent_build Recorder.default_site
      (ret 3) (ret ("out of heap"%string, [])) [] <> Returns u w'.
Proof.
  assert (H : @panic_never_returns _ _ Tracing.api).
  { intros code extra delay w. eexists. reflexivity. }
  split; [exact H |].
  apply (PANIC_in_every_build (api := Tracing.api) silent_build
           Recorder.default_site (ret 3) (ret ("out of heap"%string, []))
           H []).
Defined.

Lemma LOG_ENABLED_C_is_boolean_witness :
  Built.LOG_ENABLED_C (api := Tracing.api) release_build
    Recorder.default_site Token.INFO (ret NULL) []
  = Returns 1 [Tracing.Called_log_enabled 30 NULL NULL] /\
  ((1 = 0 \/ 1 = 1) /\
   (1 = 1 ->
    def_LOG_DISABLE release_build = false /\
    LOG_COMPILE_TIME_LEVEL (site_config Recorder.default_site)
      <= LOG_LEVEL_ Token.INFO)).
Proof.
  split; [reflexivity |].
  apply (LOG_ENABLED_C_is_boolean (api := Tracing.api) release_build
           Recorder.default_site Token.INFO (ret NULL) [] 1
           [Tracing.Called_log_enabled 30 NULL NULL] eq_refl).
Defined.

(** ** Scoped categories at the call *)

Section ScopedCalls.

Context {W VaList : Type} {api : LogApi W VaList}.
Local Open Scope log_scope.

(** X12: at a call site where a non-null scoped category is visible,
    each macro that uses the current category passes that category to the
    function it calls, irrespective of the source-file and module
    categories of the unit: it is the corresponding [_C] macro applied to
    the scoped category. *)
Theorem scoped_category_reaches_the_call (site : CallSite) (_name : string)
    (_level : level_token) :
  Category.visible_log_category (site_scopes site) = Some _name ->
  forall w : W,
    (forall _fmt va,
        LOG site _level (ret (_fmt, va)) w
        = LOG_C site _level (ret (Some _name, _fmt, va)) w) /\
    (forall _data _size,
        LOG_WRITE site _level (ret (_data, _size)) w
        = LOG_WRITE_C site _level (ret (Some _name, _data, _size)) w) /\
    (forall _str,
        LOG_PRINT site _level _str w
        = LOG_PRINT_C site _level (ret (Some _name)) _str w) /\
    (forall _fmt va,
        LOG_PRINTF site _level (ret (_fmt, va)) w
        = LOG_PRINTF_C site _level (ret (Some _name, _fmt, va)) w) /\
    (forall _data _size,
        LOG_DUMP site _level (ret (_data, _size)) w
        = LOG_DUMP_C site _level (ret (Some _name, _data, _size)) w) /\
    LOG_ENABLED site _level w
    = LOG_ENABLED_C site _level (ret (Some _name)) w.
Proof.
  intros Hvisible w.
  assert (Hthis : LOG_THIS_CATEGORY site = Some _name).
  { unfold LOG_THIS_CATEGORY. rewrite Hvisible. reflexivity. }
  unfold LOG, LOG_WRITE, LOG_PRINT, LOG_PRINTF, LOG_DUMP, LOG_ENABLED.
  rewrite Hthis.
  unfold LOG_C, LOG_WRITE_C, LOG_PRINTF_C, LOG_DUMP_C.
  destruct (LOG_LEVEL_ _level >=? LOG_COMPILE_TIME_LEVEL (site_config site));
    repeat split; intros; unfold bind, ret;
    destruct (_LOG_INIT_ATTR site w); reflexivity.
Qed.

End ScopedCalls.

Lemma scoped_category_reaches_the_call_witness :
  Category.visible_log_category
    (site_scopes
       (Recorder.site_in default_config [None; Some (Some "net.tcp"%string)]))
  = Some "net.tcp"%string /\
  forall _fmt va,
    LOG (api := Tracing.api)
      (Recorder.site_in default_config [None; Some (Some "net.tcp"%string)])
      Token.WARN (ret (_fmt, va)) []
    = LOG_C (api := Tracing.api)
        (Recorder.site_in default_config [None; Some (Some "net.tcp"%string)])
        Token.WARN (ret (Some "net.tcp"%string, _fmt, va)) [].
Proof.
  split; [reflexivity |].
  apply (scoped_category_reaches_the_call (api := Tracing.api)
           (Recorder.site_in default_config
              [None; Some (Some "net.tcp"%string)])
           "net.tcp" Token.WARN eq_refl []).
Defined.

(** ** The C++ resolver and whole units *)

Section CppFacts.

Import Category.

Variable tu : TranslationUnit.








End CppFacts.

Section UnitFacts.

Import Category Units.

Variable cfg : Config.






End UnitFacts.


(** What [LOG_CATEGORY(NULL)] gives in the C branch, which the amended
    claim neither promises nor denies. *)
Example null_scoped_category_in_C :
  Category.resolve Examples.unit_with_source [] Examples.declared_null
    = Some ([Some "src"%string], []) /\
  CategoryCpp.resolve Examples.unit_with_source [] Examples.declared_null
    = Some ([NULL], []).
Proof. split; reflexivity. Qed.




(** A call site that names the typedef before [LOG_SOURCE_CATEGORY]: the
    C branch binds both sites to the source category, the C++ branch
    rejects the unit.  With a scoped category at the earlier site both
    accept. *)
Example source_category_after_use :
  Units.resolve_c default_config UnitExamples.source_after_use
    = Some [Some "src"%string; Some "src"%string] /\
  Units.resolve_cpp default_config None false UnitExamples.source_after_use
    = None /\
  Units.resolve_c default_config UnitExamples.source_after_scoped_use
    = Some [Some "a"%string; Some "src"%string] /\
  Units.resolve_cpp default_config None false
    UnitExamples.source_after_scoped_use
    = Some [Some "a"%string; Some "src"%string] /\
  Units.resolve_cpp default_config None false UnitExamples.source_then_body
    = Some [Some "src"%string; Some "b"%string; Some "src"%string].
Proof. repeat split. Qed.
